(** * AMP fallback routing (internal/api/modules/amp/fallback_handlers_cn.go)

    A shallow embedding of the routing wrapper [FallbackHandler.WrapHandler]
    and of the helpers it is built from, followed by the properties of the
    routing and fallback engine.

    Byte slices and Go strings are [string]s (sequences of bytes).  The
    wrapper is a computation over the gin context that records, in order,
    every call it makes to a collaborator (mapper, provider registry, routing
    log, downstream handler, reverse proxy, response rewriter); a panic of the
    downstream handler or of the reverse proxy unwinds the wrapper.

    The endpoints of package [augplus] (internal/api/modules/augplus) are
    embedded as functions from the module and the context to the reply
    written. *)

From Stdlib Require Import String Ascii ZArith Bool.
From stdpp Require Import base option list strings pretty gmap.

Open Scope string_scope.
Open Scope list_scope.
Open Scope Z_scope.

(** Go's [[]byte]. *)
Abbreviation bytes := string (only parsing).

(** ** The slice of the standard library the file uses

    Go's [unicode/utf8], [unicode] and [strings], as far as [strings.TrimSpace],
    [strings.Index] and [strings.Split] need them.  A rune is an integer. *)

(** The value of a byte; [len(s)] and [s[i]] on a string; the conversions to
    [int32] and [uint32]. *)
Definition byte (a : ascii) : Z := Z.of_N (N_of_ascii a).

Definition len (s : string) : Z := Z.of_nat (String.length s).

Definition byteAt (s : string) (i : Z) : Z :=
  match String.get (Z.to_nat i) s with
  | Some a => byte a
  | None => 0
  end.

Definition int32 (z : Z) : Z := (z + 2 ^ 31) mod 2 ^ 32 - 2 ^ 31.

Definition uint32 (z : Z) : Z := z mod 2 ^ 32.

Module utf8.

Definition RuneError : Z := 0xFFFD.
Definition RuneSelf : Z := 0x80.
Definition UTFMax : Z := 4.

Definition maskx : Z := 0x3F.
Definition mask2 : Z := 0x1F.
Definition mask3 : Z := 0x0F.
Definition mask4 : Z := 0x07.

Definition locb : Z := 0x80.
Definition hicb : Z := 0xBF.

(** The entries of the table [first]: the size of the sequence a first byte
    opens in the low bits, the index of the range of its second byte in the
    high ones. *)
Definition xx : Z := 0xF1. (* invalid: size 1 *)
Definition as_ : Z := 0xF0. (* ASCII: size 1 *)
Definition s1 : Z := 0x02. (* accept 0, size 2 *)
Definition s2 : Z := 0x13. (* accept 1, size 3 *)
Definition s3 : Z := 0x03. (* accept 0, size 3 *)
Definition s4 : Z := 0x23. (* accept 2, size 3 *)
Definition s5 : Z := 0x34. (* accept 3, size 4 *)
Definition s6 : Z := 0x04. (* accept 0, size 4 *)
Definition s7 : Z := 0x44. (* accept 4, size 4 *)

(** [first[b]], row by row of the table. *)
Definition first (b : Z) : Z :=
  if b <=? 0x7F then as_        (* 0x00-0x7F *)
  else if b <=? 0xC1 then xx    (* 0x80-0xBF, 0xC0, 0xC1 *)
  else if b <=? 0xDF then s1    (* 0xC2-0xDF *)
  else if b =? 0xE0 then s2
  else if b <=? 0xEC then s3    (* 0xE1-0xEC *)
  else if b =? 0xED then s4
  else if b <=? 0xEF then s3    (* 0xEE, 0xEF *)
  else if b =? 0xF0 then s5
  else if b <=? 0xF3 then s6    (* 0xF1-0xF3 *)
  else if b =? 0xF4 then s7
  else xx.                      (* 0xF5-0xFF *)

(** [acceptRanges[i]]: the lowest and the highest second byte. *)
Definition acceptRanges (i : Z) : Z * Z :=
  match i with
  | 0 => (locb, hicb)
  | 1 => (0xA0, hicb)
  | 2 => (locb, 0x9F)
  | 3 => (0x90, hicb)
  | 4 => (locb, 0x8F)
  | _ => (0, 0)
  end.

(** [utf8.DecodeRuneInString]: the first rune of [s] and its width in bytes;
    [(RuneError, 1)] on an encoding that is not valid. *)
Definition DecodeRuneInString (s : string) : Z * Z :=
  let n := len s in
  if n <? 1 then (RuneError, 0)
  else
    let s0 := byteAt s 0 in
    let x := first s0 in
    if x >=? as_ then
      let mask := Z.shiftr (int32 (Z.shiftl x 31)) 31 in
      (Z.lor (Z.land s0 (Z.lnot mask)) (Z.land RuneError mask), 1)
    else
      let sz := Z.land x 7 in
      let accept := acceptRanges (Z.shiftr x 4) in
      if n <? sz then (RuneError, 1)
      else
        let s1 := byteAt s 1 in
        if (s1 <? accept.1) || (accept.2 <? s1) then (RuneError, 1)
        else if sz <=? 2 then
          (Z.lor (Z.shiftl (Z.land s0 mask2) 6) (Z.land s1 maskx), 2)
        else
          let s2 := byteAt s 2 in
          if (s2 <? locb) || (hicb <? s2) then (RuneError, 1)
          else if sz <=? 3 then
            (Z.lor (Z.lor (Z.shiftl (Z.land s0 mask3) 12) (Z.shiftl (Z.land s1 maskx) 6))
               (Z.land s2 maskx), 3)
          else
            let s3 := byteAt s 3 in
            if (s3 <? locb) || (hicb <? s3) then (RuneError, 1)
            else
              (Z.lor (Z.lor (Z.lor (Z.shiftl (Z.land s0 mask4) 18)
                                   (Z.shiftl (Z.land s1 maskx) 12))
                            (Z.shiftl (Z.land s2 maskx) 6))
                 (Z.land s3 maskx), 4).

(** [utf8.RuneStart]: the byte is no continuation byte. *)
Definition RuneStart (b : Z) : bool := negb (Z.land b 0xC0 =? 0x80).

(** The loop of [DecodeLastRuneInString]: from [start] down to [lim], the
    index of the first byte that can start a rune, or [lim - 1]. *)
Fixpoint runeStartFrom (s : string) (start lim : Z) (fuel : nat) : Z :=
  match fuel with
  | O => start
  | S fuel' =>
      if start >=? lim then
        if RuneStart (byteAt s start) then start
        else runeStartFrom s (start - 1) lim fuel'
      else start
  end.

(** [utf8.DecodeLastRuneInString]: the last rune of [s] and its width.  The
    loop looks at the [UTFMax - 1] bytes before the last one at most. *)
Definition DecodeLastRuneInString (s : string) : Z * Z :=
  let end_ := len s in
  if end_ =? 0 then (RuneError, 0)
  else
    let start := end_ - 1 in
    let r := byteAt s start in
    if r <? RuneSelf then (r, 1)
    else
      let lim := end_ - UTFMax in
      let lim := if lim <? 0 then 0 else lim in
      let start := runeStartFrom s (start - 1) lim (Z.to_nat UTFMax) in
      let start := if start <? 0 then 0 else start in
      let '(r, size) :=
        DecodeRuneInString
          (String.substring (Z.to_nat start) (Z.to_nat (end_ - start)) s) in
      if negb (start + size =? end_) then (RuneError, 1) else (r, size).

End utf8.

Module unicode.

Definition MaxLatin1 : Z := 0xFF.

(** The 16-bit ranges of the table [White_Space], each of stride 1; the
    first [LatinOffset] of them lie in Latin-1.  The table has no 32-bit
    range. *)
Definition White_Space : list (Z * Z) :=
  [ (0x0009, 0x000d); (0x0020, 0x0020); (0x0085, 0x0085); (0x00a0, 0x00a0);
    (0x1680, 0x1680); (0x2000, 0x200a); (0x2028, 0x2029); (0x202f, 0x202f);
    (0x205f, 0x205f); (0x3000, 0x3000) ].

Definition LatinOffset : nat := 4.

Definition is16 (ranges : list (Z * Z)) (r : Z) : bool :=
  existsb (fun range_ => (range_.1 <=? r) && (r <=? range_.2)) ranges.

(** [isExcludingLatin(White_Space, r)]. *)
Definition isExcludingLatin (r16 : list (Z * Z)) (r : Z) : bool :=
  if (LatinOffset <? length r16)%nat && (uint32 r <=? (List.last r16 (0, 0)).2)
  then is16 (drop LatinOffset r16) (r mod 2 ^ 16)
  else false.

(** [unicode.IsSpace]. *)
Definition IsSpace (r : Z) : bool :=
  if uint32 r <=? MaxLatin1 then
    (r =? 0x09) || (r =? 0x0A) || (r =? 0x0B) || (r =? 0x0C) || (r =? 0x0D)
    || (r =? 0x20) || (r =? 0x85) || (r =? 0xA0)
  else isExcludingLatin White_Space r.

End unicode.

Module strings.

(** The table [asciiSpace]: tab, line feed, vertical tab, form feed,
    carriage return, space. *)
Definition asciiSpace (c : Z) : bool :=
  (c =? 0x09) || (c =? 0x0A) || (c =? 0x0B) || (c =? 0x0C) || (c =? 0x0D) || (c =? 0x20).

(** [s[i:]], [s[:j]] and [s[i:j]] for indices within the string. *)
Definition sliceFrom (s : string) (i : Z) : string :=
  String.substring (Z.to_nat i) (String.length s - Z.to_nat i) s.

Definition sliceTo (s : string) (j : Z) : string :=
  String.substring 0 (Z.to_nat j) s.

Definition slice (s : string) (i j : Z) : string :=
  String.substring (Z.to_nat i) (Z.to_nat (j - i)) s.

(** [for i, r := range s]: the byte index and the rune of each iteration, in
    order.  At a byte, [skip] counts the bytes still to pass of the rune read
    last; the rune at [i] is decoded from the bytes from [i] onwards. *)
Fixpoint rangeFrom (s : string) (i : Z) (skip : nat) : list (Z * Z) :=
  match s with
  | EmptyString => []
  | String _ s' =>
      match skip with
      | S skip' => rangeFrom s' (i + 1) skip'
      | O =>
          let '(r, size) := utf8.DecodeRuneInString s in
          (i, r) :: rangeFrom s' (i + 1) (Z.to_nat size - 1)
      end
  end.

Definition range (s : string) : list (Z * Z) := rangeFrom s 0 0.

(** [indexFunc]: the index of the first rune for which [f] is [truth], or
    -1. *)
Definition indexFunc (s : string) (f : Z -> bool) (truth : bool) : Z :=
  match List.find (fun ir => Bool.eqb (f ir.2) truth) (range s) with
  | Some ir => ir.1
  | None => -1
  end.

(** The loop of [lastIndexFunc], from the index [i] down: at [i], [skip]
    counts the bytes still to pass of the rune read last; the rune that ends
    at [i] is decoded from [s[0:i]]. *)
Fixpoint lastIndexFrom (s : string) (f : Z -> bool) (truth : bool) (i skip : nat) : Z :=
  match i with
  | O => -1
  | S i' =>
      match skip with
      | S skip' => lastIndexFrom s f truth i' skip'
      | O =>
          let '(r, size) := utf8.DecodeLastRuneInString (sliceTo s (Z.of_nat i)) in
          if Bool.eqb (f r) truth then Z.of_nat i - size
          else lastIndexFrom s f truth i' (Z.to_nat size - 1)
      end
  end.

(** [lastIndexFunc]: the index of the last rune for which [f] is [truth], or
    -1. *)
Definition lastIndexFunc (s : string) (f : Z -> bool) (truth : bool) : Z :=
  lastIndexFrom s f truth (String.length s) 0.

(** [strings.TrimLeftFunc], [strings.TrimRightFunc], [strings.TrimFunc]. *)
Definition TrimLeftFunc (s : string) (f : Z -> bool) : string :=
  let i := indexFunc s f false in
  if i =? -1 then "" else sliceFrom s i.

Definition TrimRightFunc (s : string) (f : Z -> bool) : string :=
  let i := lastIndexFunc s f false in
  let i :=
    if (i >=? 0) && (byteAt s i >=? utf8.RuneSelf)
    then i + (utf8.DecodeRuneInString (sliceFrom s i)).2
    else i + 1 in
  sliceTo s i.

Definition TrimFunc (s : string) (f : Z -> bool) : string :=
  TrimRightFunc (TrimLeftFunc s f) f.

(** The second loop of [TrimSpace]: [stop] moves down from the end over the
    ASCII white space, as long as it is above [start]; a byte that is not
    ASCII leaves the end to [TrimRightFunc]. *)
Fixpoint trimStop (s : string) (start : Z) (stop : nat) : string :=
  match stop with
  | O => slice s start 0
  | S stop' =>
      if Z.of_nat stop >? start then
        let c := byteAt s (Z.of_nat stop - 1) in
        if c >=? utf8.RuneSelf
        then TrimRightFunc (slice s start (Z.of_nat stop)) unicode.IsSpace
        else if asciiSpace c then trimStop s start stop'
        else slice s start (Z.of_nat stop)
      else slice s start (Z.of_nat stop)
  end.

(** The first loop of [TrimSpace]: [start] moves up over the ASCII white
    space; [rest] is [s[start:]], its first byte is [s[start]].  A byte that
    is not ASCII leaves the rest to [TrimFunc]. *)
Fixpoint trimStart (s rest : string) (start : Z) : string :=
  match rest with
  | EmptyString => trimStop s start (String.length s)
  | String a rest' =>
      let c := byte a in
      if c >=? utf8.RuneSelf then TrimFunc (sliceFrom s start) unicode.IsSpace
      else if asciiSpace c then trimStart s rest' (start + 1)
      else trimStop s start (String.length s)
  end.

(** [strings.TrimSpace]: [s] without its leading and trailing white space,
    as Unicode defines it. *)
Definition TrimSpace (s : string) : string := trimStart s s 0.

(** [strings.Index]: the byte index of the first occurrence, or -1. *)
Fixpoint Index (s substr : string) : Z :=
  if String.prefix substr s then 0
  else match s with
       | EmptyString => -1
       | String _ s' =>
           let i := Index s' substr in
           if (i <? 0) then -1 else i + 1
       end.

(** [strings.Split(s, sep)] for a one-byte separator. *)
Fixpoint Split (s : string) (sep : ascii) : list string :=
  match s with
  | EmptyString => [EmptyString]
  | String a s' =>
      if Ascii.eqb a sep then EmptyString :: Split s' sep
      else match Split s' sep with
           | p :: ps => String a p :: ps
           | [] => [String a EmptyString]
           end
  end.

End strings.

(** ** Package [thinking]: the suffix normalizer *)

Module thinking.

Record SuffixResult := {
  ModelName : string;
  HasSuffix : bool;
  RawSuffix : string
}.

(** Modelled from the spec: the two scans of [ParseSuffix] below.
    [splitLastOpen s] cuts [s] at its last opening parenthesis. *)
Fixpoint splitLastOpen (s : string) : option (string * string) :=
  match s with
  | EmptyString => None
  | String a s' =>
      match splitLastOpen s' with
      | Some (b, t) => Some (String a b, t)
      | None => if Ascii.eqb a "(" then Some (EmptyString, s') else None
      end
  end.

(** Modelled from the spec: [dropClose s] removes the closing parenthesis
    that ends [s], if there is one. *)
Fixpoint dropClose (s : string) : option string :=
  match s with
  | EmptyString => None
  | String a EmptyString => if Ascii.eqb a ")" then Some EmptyString else None
  | String a s' => option_map (String a) (dropClose s')
  end.

(** Modelled from the spec: [thinking.ParseSuffix] is not among the source
    files.  It parses a trailing [(token)] anchored at the end of the
    string: the token runs from the last opening parenthesis to the final
    closing one; a name without that pattern, the empty name included, is
    returned unchanged with no suffix. *)
Definition ParseSuffix (model : string) : SuffixResult :=
  match splitLastOpen model with
  | Some (base, rest) =>
      match dropClose rest with
      | Some raw => {| ModelName := base; HasSuffix := true; RawSuffix := raw |}
      | None => {| ModelName := model; HasSuffix := false; RawSuffix := "" |}
      end
  | None => {| ModelName := model; HasSuffix := false; RawSuffix := "" |}
  end.

End thinking.

(** ** Package [gjson]: the result of a path query *)

Module gjson.

Inductive Type_ := Null | False_ | Number | String_ | True_ | JSON.

#[global] Instance Type_eq_dec : EqDecision Type_.
Proof. solve_decision. Defined.

Record Result := {
  Type' : Type_;
  Raw : string;   (* the raw json text of the value *)
  Str : string    (* the unescaped text of a string value *)
}.

(** [Result.Exists]. *)
Definition Exists (t : Result) : bool :=
  negb (bool_decide (Type' t = Null)) || negb (bool_decide (Raw t = "")).

(** [Result.String]; a number is printed by its raw text. *)
Definition String (t : Result) : string :=
  match Type' t with
  | Null => ""
  | False_ => "false"
  | Number => Raw t
  | String_ => Str t
  | True_ => "true"
  | JSON => Raw t
  end.

End gjson.

(** ** Collaborators outside the file

    The json library, the provider registry, the beta-feature filter of the
    package and the clock are taken as they are: any implementation. *)

Class Externals := {
  (* gjson.GetBytes(json, path) *)
  gjson_GetBytes : bytes -> string -> gjson.Result;
  (* sjson.SetBytes(json, path, value): the new document, or an error *)
  sjson_SetBytes : bytes -> string -> string -> bytes + string;
  (* util.GetProviderName(modelName): the providers configured for a model *)
  util_GetProviderName : string -> list string;
  (* filterBetaFeatures(header, featureToRemove) *)
  filterBetaFeatures : string -> string -> string;
  (* time.Now().Format(time.RFC3339) *)
  timestamp : string
}.

(** The [ModelMapper] interface: [MapModel] gives the target of a model name,
    or the empty string when the name is not mapped. *)
Class ModelMapper (T : Type) := MapModel : T -> string -> string.

(** ** Data of the handler *)

(** AmpRouteType: the routing decision taken for a request. *)
Inductive AmpRouteType :=
| RouteTypeLocalProvider
| RouteTypeModelMapping
| RouteTypeAmpCredits
| RouteTypeNoProvider.

#[global] Instance AmpRouteType_eq_dec : EqDecision AmpRouteType.
Proof. solve_decision. Defined.

Definition AmpRouteType_string (t : AmpRouteType) : string :=
  match t with
  | RouteTypeLocalProvider => "LOCAL_PROVIDER"
  | RouteTypeModelMapping => "MODEL_MAPPING"
  | RouteTypeAmpCredits => "AMP_CREDITS"
  | RouteTypeNoProvider => "NO_PROVIDER"
  end.

Definition MappedModelContextKey : string := "mapped_model".

(** The end of a call: it returned, or it panicked. *)
Inductive Outcome (A : Type) :=
| Returned (a : A)
| Panicked.

Arguments Returned {A} a.
Arguments Panicked {A}.

(** A request body: a reader over bytes, or a reader that fails. *)
Inductive ReadCloser :=
| NopCloser (data : bytes)
| BrokenReader (err : string).

(** Modelled from the spec: [NewResponseRewriter] is not among the source
    files.  A response writer is the client's, or a response rewriter around
    another writer; the rewriter holds the model name the client asked for,
    to which the model names written back are translated. *)
Inductive ResponseWriter :=
| ClientWriter
| NewResponseRewriter (w : ResponseWriter) (originalModel : string).

Record Request := {
  URL_Path : string;
  Body : ReadCloser;
  Header : gmap string (list string)
}.

(** [httputil.ReverseProxy], known by the upstream it forwards to and by
    how its [ServeHTTP] ends on a writer and a request: it returns, also
    after it has written an error response, or it panics with
    [http.ErrAbortHandler] when the copy of the upstream response to the
    client fails. *)
Record ReverseProxy := {
  upstream : string;
  roundTrip : ResponseWriter -> Request -> Outcome unit
}.

(** The part of [gin.Context] the wrapper reads and writes. *)
Record Context := {
  Request_ : Request;
  Params : list (string * string);
  Keys : gmap string string;
  Writer : ResponseWriter
}.

Definition Request_with_Body (r : Request) (b : ReadCloser) : Request :=
  {| URL_Path := URL_Path r; Body := b; Header := Header r |}.

Definition Request_with_Header (r : Request) (h : gmap string (list string)) : Request :=
  {| URL_Path := URL_Path r; Body := Body r; Header := h |}.

Definition with_Request (c : Context) (r : Request) : Context :=
  {| Request_ := r; Params := Params c; Keys := Keys c; Writer := Writer c |}.

Definition with_Keys (c : Context) (k : gmap string string) : Context :=
  {| Request_ := Request_ c; Params := Params c; Keys := k; Writer := Writer c |}.

Definition with_Writer (c : Context) (w : ResponseWriter) : Context :=
  {| Request_ := Request_ c; Params := Params c; Keys := Keys c; Writer := w |}.

(** [c.Param(key)]: the value of the first parameter of that name, or "". *)
Fixpoint Param (ps : list (string * string)) (key : string) : string :=
  match ps with
  | [] => ""
  | (k, v) :: ps' => if decide (k = key) then v else Param ps' key
  end.

(** [http.Header]'s [Get], [Set] and [Del] on a canonical key. *)
Definition Header_Get (h : gmap string (list string)) (key : string) : string :=
  match h !! key with
  | Some (v :: _) => v
  | _ => ""
  end.

Definition Header_Set (h : gmap string (list string)) (key value : string)
  : gmap string (list string) := <[key := [value]]> h.

Definition Header_Del (h : gmap string (list string)) (key : string)
  : gmap string (list string) := delete key h.

(** ** Calls and computations *)

(** The calls a computation makes to its collaborators.  A call of a
    handler holds the context the handler is given and the calls the handler
    made in its turn. *)
#[warnings="-register-all"]
Inductive Call :=
| CallMapModel (name : string)
| CallGetProviderName (name : string)
| CallLogAmpRouting (routeType : AmpRouteType)
    (requestedModel resolvedModel provider path : string)
| CallHandler (c : Context) (made : list Call)
| CallServeHTTP (proxy : ReverseProxy) (w : ResponseWriter) (r : Request)
| CallFlush (rewriter : ResponseWriter).

(** A lookup computes a value and records the collaborators it asked. *)
Definition Lookup (A : Type) : Type := A * list Call.

#[global] Instance Lookup_ret : MRet Lookup := fun A a => (a, []).

#[global] Instance Lookup_bind : MBind Lookup := fun A B f m =>
  let '(b, t) := f (fst m) in (b, snd m ++ t).

(** A computation on the gin context: how it ends, the context it leaves and
    the calls it made, in order.  A panic skips what follows. *)
Definition Gin (A : Type) : Type := Context -> Outcome A * Context * list Call.

#[global] Instance Gin_ret : MRet Gin := fun A a c => (Returned a, c, []).

#[global] Instance Gin_bind : MBind Gin := fun A B f m c =>
  match m c with
  | (Returned a, c', t) => let '(o, c'', t') := f a c' in (o, c'', t ++ t')
  | (Panicked, c', t) => (Panicked, c', t)
  end.

Definition lookup {A} (q : Lookup A) : Gin A := fun c => (Returned (fst q), c, snd q).

Definition emit (e : Call) : Gin unit := fun c => (Returned tt, c, [e]).

Definition getContext : Gin Context := fun c => (Returned c, c, []).

Definition setContext (c' : Context) : Gin unit := fun _ => (Returned tt, c', []).

(** Binding a pair or tuple: the computation is read before its continuation. *)
Definition andThen {M : Type -> Type} `{MBind M} {A B : Type} (m : M A) (f : A -> M B)
  : M B := mbind f m.

Notation "'let*' p := m 'in' k" := (andThen m (fun p => k))
  (at level 10, p pattern, m at level 100, k at level 200, only parsing).

(** [gin.HandlerFunc]. *)
Definition HandlerFunc : Type := Gin unit.

(** [handler(c)]: the call is recorded with the context it is given. *)
Definition call (handler : HandlerFunc) : Gin unit := fun c =>
  let '(o, c', t) := handler c in (o, c', [CallHandler c t]).

(** ** The routing log *)

Inductive Level := Debug | Warn.

(** A text between double quotes. *)
Definition quoted (s : string) : string :=
  String "034"%char (s +:+ String "034"%char EmptyString).

(** What [logAmpRouting] computes: the structured fields, and the record it
    writes with them, if it writes one. *)
Record RoutingLog := {
  fields : gmap string string;
  written : option (Level * string)
}.

(** The handler: the proxy to fall back on, read when needed; the mapper,
    which may be absent; the force-priority flag, read per request. *)
Record FallbackHandler (T : Type) := {
  getProxy : unit -> option ReverseProxy;
  modelMapper : option T;
  forceModelMappings : option (unit -> bool)
}.

Arguments getProxy {T} _ _.
Arguments modelMapper {T} _.
Arguments forceModelMappings {T} _.

Section Routing.

Context {ext : Externals}.

(** Lines 44-92. *)
Definition logAmpRouting (routeType : AmpRouteType)
    (requestedModel resolvedModel provider path : string) : RoutingLog :=
  let fields : gmap string string :=
    {[ "component" := "amp-routing";
       "route_type" := AmpRouteType_string routeType;
       "requested_model" := requestedModel;
       "path" := path;
       "timestamp" := timestamp ]} in
  let fields :=
    if bool_decide (resolvedModel ≠ "") && bool_decide (resolvedModel ≠ requestedModel)
    then <["resolved_model" := resolvedModel]> fields else fields in
  let fields :=
    if bool_decide (provider ≠ "") then <["provider" := provider]> fields else fields in
  match routeType with
  | RouteTypeLocalProvider =>
      let fields := <["source" := "local_oauth"]> (<["cost" := "free"]> fields) in
      {| fields := fields;
         written := Some (Debug, "amp using local provider for model: " +:+ requestedModel) |}
  | RouteTypeModelMapping =>
      let fields := <["source" := "local_oauth"]> (<["cost" := "free"]> fields) in
      let fields := <["mapping" := requestedModel +:+ " -> " +:+ resolvedModel]> fields in
      {| fields := fields; written := None |}
  | RouteTypeAmpCredits =>
      let fields := <["source" := "ampcode.com"]> (<["cost" := "amp_credits"]> fields) in
      let fields := <["model_id" := requestedModel]> fields in
      {| fields := fields;
         written :=
           Some (Warn,
                 "forwarding to ampcode.com (uses amp credits) - model_id: "
                 +:+ requestedModel
                 +:+ " | To use local provider, add to config: ampcode.model-mappings: [{from: "
                 +:+ quoted requestedModel +:+ ", to: " +:+ quoted "<your-local-model>"
                 +:+ "}]") |}
  | RouteTypeNoProvider =>
      let fields := <["source" := "error"]> (<["cost" := "none"]> fields) in
      let fields := <["model_id" := requestedModel]> fields in
      {| fields := fields;
         written := Some (Warn, "no provider available for model_id: " +:+ requestedModel) |}
  end.

(** Lines 109-114. *)
Definition NewFallbackHandler {T} (getProxy : unit -> option ReverseProxy)
  : FallbackHandler T :=
  {| getProxy := getProxy;
     modelMapper := None;
     forceModelMappings := Some (fun _ => false) |}.

(** Lines 122-132. *)
Definition NewFallbackHandlerWithMapper {T} (getProxy : unit -> option ReverseProxy)
    (mapper : option T) (forceModelMappings : option (unit -> bool))
  : FallbackHandler T :=
  let forceModelMappings :=
    match forceModelMappings with
    | None => Some (fun _ => false)
    | Some f => Some f
    end in
  {| getProxy := getProxy;
     modelMapper := mapper;
     forceModelMappings := forceModelMappings |}.

(** Lines 137-139. *)
Definition SetModelMapper {T} (fh : FallbackHandler T) (mapper : option T)
  : FallbackHandler T :=
  {| getProxy := getProxy fh;
     modelMapper := mapper;
     forceModelMappings := forceModelMappings fh |}.

(** Lines 337-349. *)
Definition rewriteModelInRequest (body : bytes) (newModel : string) : bytes :=
  if negb (gjson.Exists (gjson_GetBytes body "model")) then body
  else
    match sjson_SetBytes body "model" newModel with
    | inr err => body
    | inl result => result
    end.

(** Lines 359-390. *)
Definition extractModelFromRequest (body : bytes) (c : Context) : string :=
  let result := gjson_GetBytes body "model" in
  if gjson.Exists result && bool_decide (gjson.Type' result = gjson.String_)
  then gjson.String result
  else
    let action := Param (Params c) "action" in
    let fromAction :=
      if bool_decide (action ≠ "") then
        match strings.Split action ":" with
        | part0 :: _ => if bool_decide (part0 ≠ "") then Some part0 else None
        | [] => None
        end
      else None in
    match fromAction with
    | Some model => model
    | None =>
        let path := Param (Params c) "path" in
        let fromPath :=
          if bool_decide (path ≠ "") then
            let idx := strings.Index path "/models/" in
            if idx >=? 0 then
              let modelPart := strings.sliceFrom path (idx + 8) in
              let colonIdx := strings.Index modelPart ":" in
              if colonIdx >? 0 then Some (strings.sliceTo modelPart colonIdx)
              else None
            else None
          else None in
        match fromPath with
        | Some model => model
        | None => ""
        end
    end.

(** Lines 319-330. *)
Definition filterAntropicBetaHeader : Gin unit :=
  c ← getContext;
  let header := Header (Request_ c) in
  let betaHeader := Header_Get header "Anthropic-Beta" in
  if bool_decide (betaHeader ≠ "") then
    let filtered := filterBetaFeatures betaHeader "context-1m-2025-08-07" in
    if bool_decide (filtered ≠ "") then
      setContext (with_Request c
        (Request_with_Header (Request_ c) (Header_Set header "Anthropic-Beta" filtered)))
    else
      setContext (with_Request c
        (Request_with_Header (Request_ c) (Header_Del header "Anthropic-Beta")))
  else mret tt.

(** [io.ReadAll(c.Request.Body)]: the bytes read, and the reader drained. *)
Definition io_ReadAll : Gin (bytes + string) := fun c =>
  match Body (Request_ c) with
  | NopCloser data =>
      (Returned (inl data),
       with_Request c (Request_with_Body (Request_ c) (NopCloser "")), [])
  | BrokenReader err => (Returned (inr err), c, [])
  end.

(** [c.Request.Body = io.NopCloser(bytes.NewReader(bodyBytes))]. *)
Definition setRequestBody (bodyBytes : bytes) : Gin unit := fun c =>
  (Returned tt, with_Request c (Request_with_Body (Request_ c) (NopCloser bodyBytes)), []).

(** [c.Set(key, value)]. *)
Definition Set_ (key value : string) : Gin unit := fun c =>
  (Returned tt, with_Keys c (<[key := value]> (Keys c)), []).

(** [c.Writer = w]. *)
Definition setWriter (w : ResponseWriter) : Gin unit := fun c =>
  (Returned tt, with_Writer c w, []).

(** The lookups [util.GetProviderName(name)] and [mapper.MapModel(name)],
    recorded as calls. *)
Definition GetProviderName (name : string) : Lookup (list string) :=
  (util_GetProviderName name, [CallGetProviderName name]).

Definition mapper_MapModel {T} {mapperOf : ModelMapper T} (mapper : T) (name : string)
  : Lookup string :=
  (MapModel mapper name, [CallMapModel name]).

(** [proxy.ServeHTTP(c.Writer, c.Request)]: the call is recorded with the
    writer and the request it is given, and ends as the proxy ends. *)
Definition ServeHTTP (proxy : ReverseProxy) : Gin unit := fun c =>
  (roundTrip proxy (Writer c) (Request_ c), c,
   [CallServeHTTP proxy (Writer c) (Request_ c)]).

(** The closure [resolveMappedModel] of [WrapHandler], lines 180-215, over
    the variables it captures. *)
Definition resolveMappedModel {T} {mapperOf : ModelMapper T} (fh : FallbackHandler T)
    (modelName normalizedModel thinkingSuffix : string)
  : Lookup (string * list string) :=
  match modelMapper fh with
  | None => mret ("", [])
  | Some mapper =>
      mappedModel ← mapper_MapModel mapper modelName;
      mappedModel ← (if bool_decide (mappedModel = "")
                     then mapper_MapModel mapper normalizedModel
                     else mret mappedModel);
      let mappedModel := strings.TrimSpace mappedModel in
      if bool_decide (mappedModel = "") then mret ("", [])
      else
        let mappedModel :=
          if bool_decide (thinkingSuffix ≠ "") then
            let mappedSuffixResult := thinking.ParseSuffix mappedModel in
            if negb (thinking.HasSuffix mappedSuffixResult)
            then mappedModel +:+ thinkingSuffix
            else mappedModel
          else mappedModel in
        let mappedBaseModel := thinking.ModelName (thinking.ParseSuffix mappedModel) in
        mappedProviders ← GetProviderName mappedBaseModel;
        if (length mappedProviders =? 0)%nat then mret ("", [])
        else mret (mappedModel, mappedProviders)
  end.

(** [WrapHandler], lines 146-313.  The local variables a branch assigns
    ([bodyBytes], [resolvedModel], [usedMapping], [providers]) are returned
    by the branch; a [return] ends the computation of its branch.  A call of
    [logAmpRouting] is recorded with its arguments; the plain log lines
    ([log.Errorf], [log.Debugf]) are not. *)
Definition WrapHandler {T} {mapperOf : ModelMapper T} (fh : FallbackHandler T)
    (handler : HandlerFunc) : HandlerFunc :=
  c ← getContext;
  let requestPath := URL_Path (Request_ c) in
  read ← io_ReadAll;
  match read with
  | inr err => call handler
  | inl bodyBytes =>
      setRequestBody bodyBytes;;
      c ← getContext;
      let modelName := extractModelFromRequest bodyBytes c in
      if bool_decide (modelName = "") then call handler
      else
        let suffixResult := thinking.ParseSuffix modelName in
        let normalizedModel := thinking.ModelName suffixResult in
        let thinkingSuffix :=
          if thinking.HasSuffix suffixResult
          then "(" +:+ thinking.RawSuffix suffixResult +:+ ")"
          else "" in
        let resolvedModel := normalizedModel in
        let usedMapping := false in
        let providers : list string := [] in
        let forceMappings :=
          match forceModelMappings fh with
          | Some f => f tt
          | None => false
          end in
        let* (bodyBytes, resolvedModel, usedMapping, providers) :=
          (if forceMappings then
             let* (mappedModel, mappedProviders) :=
               lookup (resolveMappedModel fh modelName normalizedModel thinkingSuffix) in
             let* (bodyBytes, resolvedModel, usedMapping, providers) :=
               (if bool_decide (mappedModel ≠ "") then
                  let bodyBytes := rewriteModelInRequest bodyBytes mappedModel in
                  setRequestBody bodyBytes;;
                  Set_ MappedModelContextKey mappedModel;;
                  mret (bodyBytes, mappedModel, true, mappedProviders)
                else mret (bodyBytes, resolvedModel, usedMapping, providers)) in
             if negb usedMapping then
               providers ← lookup (GetProviderName normalizedModel);
               mret (bodyBytes, resolvedModel, usedMapping, providers)
             else mret (bodyBytes, resolvedModel, usedMapping, providers)
           else
             providers ← lookup (GetProviderName normalizedModel);
             if (length providers =? 0)%nat then
               let* (mappedModel, mappedProviders) :=
                 lookup (resolveMappedModel fh modelName normalizedModel thinkingSuffix) in
               if bool_decide (mappedModel ≠ "") then
                 let bodyBytes := rewriteModelInRequest bodyBytes mappedModel in
                 setRequestBody bodyBytes;;
                 Set_ MappedModelContextKey mappedModel;;
                 mret (bodyBytes, mappedModel, true, mappedProviders)
               else mret (bodyBytes, resolvedModel, usedMapping, providers)
             else mret (bodyBytes, resolvedModel, usedMapping, providers)) in
        (* lines 281-311 *)
        let dispatch : Gin unit :=
          let providerName :=
            if (0 <? length providers)%nat
            then match providers with p :: _ => p | [] => "" end
            else "" in
          if usedMapping then
            emit (CallLogAmpRouting RouteTypeModelMapping modelName resolvedModel
                    providerName requestPath);;
            c ← getContext;
            let rewriter := NewResponseRewriter (Writer c) modelName in
            setWriter rewriter;;
            filterAntropicBetaHeader;;
            setRequestBody bodyBytes;;
            call handler;;
            emit (CallFlush rewriter)
          else if (0 <? length providers)%nat then
            emit (CallLogAmpRouting RouteTypeLocalProvider modelName resolvedModel
                    providerName requestPath);;
            filterAntropicBetaHeader;;
            setRequestBody bodyBytes;;
            call handler
          else
            setRequestBody bodyBytes;;
            call handler in
        (* lines 262-279 *)
        if (length providers =? 0)%nat then
          match getProxy fh tt with
          | Some proxy =>
              emit (CallLogAmpRouting RouteTypeAmpCredits modelName "" "" requestPath);;
              setRequestBody bodyBytes;;
              ServeHTTP proxy
          | None =>
              emit (CallLogAmpRouting RouteTypeNoProvider modelName "" "" requestPath);;
              dispatch
          end
        else dispatch
  end.

End Routing.

(** ** A concrete setting: a small json reader, a mapping table, a registry

    One implementation of each collaborator, on which the wrapper is run. *)

Module MiniJson.

Definition quote : ascii := "034"%char.

(** The text after the leading white space. *)
Fixpoint skipSpace (s : string) : string :=
  match s with
  | String a s' => if strings.asciiSpace (byte a) then skipSpace s' else s
  | EmptyString => EmptyString
  end.

(** The text up to the next quote and the text after it; no escapes. *)
Fixpoint untilQuote (s : string) : option (string * string) :=
  match s with
  | EmptyString => None
  | String a s' =>
      if Ascii.eqb a quote then Some (EmptyString, s')
      else if Ascii.eqb a "\" then None
      else match untilQuote s' with
           | Some (t, rest) => Some (String a t, rest)
           | None => None
           end
  end.

Definition isNumberByte (a : ascii) : bool :=
  let n := nat_of_ascii a in
  ((48 <=? n) && (n <=? 57))%nat || Ascii.eqb a "-" || Ascii.eqb a "+"
  || Ascii.eqb a "." || Ascii.eqb a "e" || Ascii.eqb a "E".

Fixpoint number (s : string) : string * string :=
  match s with
  | EmptyString => (EmptyString, EmptyString)
  | String a s' =>
      if isNumberByte a then let '(t, rest) := number s' in (String a t, rest)
      else (EmptyString, s)
  end.

(** A bracketed value, up to the bracket that closes it. *)
Fixpoint nested (s : string) (depth : nat) : option (string * string) :=
  match s with
  | EmptyString => None
  | String a s' =>
      let depth' :=
        if Ascii.eqb a "{" || Ascii.eqb a "[" then S depth
        else if Ascii.eqb a "}" || Ascii.eqb a "]" then Nat.pred depth
        else depth in
      match depth' with
      | O => Some (String a EmptyString, s')
      | _ => match nested s' depth' with
             | Some (t, rest) => Some (String a t, rest)
             | None => None
             end
      end
  end.

Definition literal (word : string) (t : gjson.Type_) (s : string)
  : option (gjson.Result * string) :=
  if String.prefix word s
  then Some ({| gjson.Type' := t; gjson.Raw := word; gjson.Str := "" |},
             strings.sliceFrom s (Z.of_nat (String.length word)))
  else None.

(** The value at the head of [s], and the text after it. *)
Definition value (s : string) : option (gjson.Result * string) :=
  match s with
  | EmptyString => None
  | String a s' =>
      if Ascii.eqb a quote then
        match untilQuote s' with
        | Some (t, rest) =>
            Some ({| gjson.Type' := gjson.String_;
                     gjson.Raw := String quote (t +:+ String quote EmptyString);
                     gjson.Str := t |}, rest)
        | None => None
        end
      else if Ascii.eqb a "{" || Ascii.eqb a "[" then
        match nested s 0 with
        | Some (t, rest) =>
            Some ({| gjson.Type' := gjson.JSON; gjson.Raw := t; gjson.Str := "" |}, rest)
        | None => None
        end
      else if isNumberByte a then
        let '(t, rest) := number s in
        Some ({| gjson.Type' := gjson.Number; gjson.Raw := t; gjson.Str := "" |}, rest)
      else
        match literal "true" gjson.True_ s with
        | Some r => Some r
        | None =>
            match literal "false" gjson.False_ s with
            | Some r => Some r
            | None => literal "null" gjson.Null s
            end
        end
  end.

(** The members of an object, from the first: the value of [key] and the
    text after it. *)
Fixpoint member (fuel : nat) (s key : string) : option (gjson.Result * string) :=
  match fuel with
  | O => None
  | S fuel' =>
      match skipSpace s with
      | String a s1 =>
          if Ascii.eqb a quote then
            match untilQuote s1 with
            | Some (k, s2) =>
                match skipSpace s2 with
                | String b s3 =>
                    if Ascii.eqb b ":" then
                      match value (skipSpace s3) with
                      | Some (v, rest) =>
                          if bool_decide (k = key) then Some (v, rest)
                          else match skipSpace rest with
                               | String d s4 =>
                                   if Ascii.eqb d "," then member fuel' s4 key else None
                               | EmptyString => None
                               end
                      | None => None
                      end
                    else None
                | EmptyString => None
                end
            | None => None
            end
          else None
      | EmptyString => None
      end
  end.

Definition find (json : bytes) (key : string) : option (gjson.Result * string) :=
  match skipSpace json with
  | String a s => if Ascii.eqb a "{" then member (String.length json) s key else None
  | EmptyString => None
  end.

Definition missing : gjson.Result :=
  {| gjson.Type' := gjson.Null; gjson.Raw := ""; gjson.Str := "" |}.

(** The member [path] of a top-level object. *)
Definition GetBytes (json : bytes) (path : string) : gjson.Result :=
  match find json path with
  | Some (v, _) => v
  | None => missing
  end.

Definition plain (a : ascii) : bool :=
  negb (Ascii.eqb a quote) && negb (Ascii.eqb a "\") && (32 <=? nat_of_ascii a)%nat.

Fixpoint allPlain (s : string) : bool :=
  match s with
  | EmptyString => true
  | String a s' => plain a && allPlain s'
  end.

(** Replaces the value of an existing member by the string [value]. *)
Definition SetBytes (json : bytes) (path value : string) : bytes + string :=
  match find json path with
  | Some (v, rest) =>
      if allPlain value then
        let before :=
          strings.sliceTo json
            (Z.of_nat (String.length json - String.length (gjson.Raw v)
                       - String.length rest)) in
        inl (before +:+ String quote (value +:+ String quote rest))
      else inr "value needs escaping"
  | None => inr "no such member"
  end.

End MiniJson.

Module Demo.

(** A mapping table: the target of the first entry for the name. *)
Fixpoint tableLookup (table : list (string * string)) (name : string) : string :=
  match table with
  | [] => ""
  | (from, to) :: table' => if bool_decide (from = name) then to else tableLookup table' name
  end.

#[global] Instance table_ModelMapper : ModelMapper (list (string * string)) := tableLookup.

(** A provider registry: the providers listed for the model. *)
Fixpoint registryLookup (registry : list (string * list string)) (name : string)
  : list string :=
  match registry with
  | [] => []
  | (model, ps) :: registry' =>
      if bool_decide (model = name) then ps else registryLookup registry' name
  end.

Fixpoint join (parts : list string) : string :=
  match parts with
  | [] => ""
  | [p] => p
  | p :: ps => p +:+ "," +:+ join ps
  end.

(** Modelled from the spec: [filterBetaFeatures] is not among the source
    files.  The header is a comma-delimited list; the denylisted token is
    removed and the order of the others kept. *)
Definition filterBeta (header featureToRemove : string) : string :=
  join (List.filter (fun t => negb (bool_decide (t = featureToRemove)))
          (List.map strings.TrimSpace (strings.Split header ","))).

Definition externals (registry : list (string * list string)) : Externals :=
  {| gjson_GetBytes := MiniJson.GetBytes;
     sjson_SetBytes := MiniJson.SetBytes;
     util_GetProviderName := registryLookup registry;
     filterBetaFeatures := filterBeta;
     timestamp := "2025-01-01T00:00:00Z" |}.

Definition q : string := String MiniJson.quote EmptyString.

(** The request body [{"model":"<name>"}]. *)
Definition modelBody (name : string) : bytes :=
  "{" +:+ q +:+ "model" +:+ q +:+ ":" +:+ q +:+ name +:+ q +:+ "}".

(** A POST of [body] on [path], with path parameters [params]. *)
Definition request (path : string) (params : list (string * string)) (body : bytes)
  : Context :=
  {| Request_ := {| URL_Path := path; Body := NopCloser body; Header := ∅ |};
     Params := params;
     Keys := ∅;
     Writer := ClientWriter |}.

(** Downstream handlers: one that returns, one that panics. *)
Definition returns : HandlerFunc := fun c => (Returned tt, c, []).

Definition panics : HandlerFunc := fun c => (Panicked, c, []).

Definition noProxy : unit -> option ReverseProxy := fun _ => None.

(** Proxies: one whose round trips return, one whose round trips abort. *)
Definition upstreamProxy : ReverseProxy :=
  {| upstream := "https://ampcode.com"; roundTrip := fun _ _ => Returned tt |}.

Definition abortingProxy : ReverseProxy :=
  {| upstream := "https://ampcode.com"; roundTrip := fun _ _ => Panicked |}.

Definition ampcode : unit -> option ReverseProxy := fun _ => Some upstreamProxy.

Definition aborting : unit -> option ReverseProxy := fun _ => Some abortingProxy.

(** A handler with a proxy, a mapping table and a force-priority flag. *)
Definition fallback (proxy : unit -> option ReverseProxy)
    (table : list (string * string)) (force : bool)
  : FallbackHandler (list (string * string)) :=
  NewFallbackHandlerWithMapper proxy (Some table) (Some (fun _ => force)).

End Demo.

(** ** Notions used to state the properties *)

(** A run of a handler: how it ended, the context left, the calls made. *)
Abbreviation Run := (Outcome unit * Context * list Call)%type.

(** What a call of [logAmpRouting] is given. *)
Record Routing := {
  routeType : AmpRouteType;
  requestedModel : string;
  resolvedModel : string;
  provider : string;
  path : string
}.

Definition routing (e : Call) : option Routing :=
  match e with
  | CallLogAmpRouting routeType requestedModel resolvedModel provider path =>
      Some {| routeType := routeType; requestedModel := requestedModel;
              resolvedModel := resolvedModel; provider := provider; path := path |}
  | _ => None
  end.

(** The routings logged by a sequence of calls, and the decisions taken. *)
Definition routings (t : list Call) : list Routing := omap routing t.

Definition decisions (t : list Call) : list AmpRouteType := routeType <$> routings t.

Definition flushed (e : Call) : option ResponseWriter :=
  match e with
  | CallFlush rewriter => Some rewriter
  | _ => None
  end.

(** The rewriters flushed by a sequence of calls. *)
Definition flushes (t : list Call) : list ResponseWriter := omap flushed t.

Definition handed (e : Call) : option Context :=
  match e with
  | CallHandler c _ => Some c
  | _ => None
  end.

(** The contexts handed to the downstream handler. *)
Definition handlerCalls (t : list Call) : list Context := omap handed t.

Definition isLookup (e : Call) : bool :=
  match e with
  | CallMapModel _ | CallGetProviderName _ => true
  | _ => false
  end.

(** Lines 171-176: the base name and the suffix kept for a requested model. *)
Definition normalize (modelName : string) : string :=
  thinking.ModelName (thinking.ParseSuffix modelName).

Definition thinkingSuffixOf (modelName : string) : string :=
  let suffixResult := thinking.ParseSuffix modelName in
  if thinking.HasSuffix suffixResult
  then "(" +:+ thinking.RawSuffix suffixResult +:+ ")"
  else "".

(** Line 223: the flag as the wrapper reads it. *)
Definition forced {T} (fh : FallbackHandler T) : bool :=
  match forceModelMappings fh with
  | Some f => f tt
  | None => false
  end.

(** Prefixing a run with earlier calls; a flush after a call that returned. *)
Definition after (pre : list Call) (r : Run) : Run := (r.1.1, r.1.2, pre ++ r.2).

Definition thenFlush (rewriter : ResponseWriter) (r : Run) : Run :=
  match r.1.1 with
  | Returned _ => (Returned tt, r.1.2, r.2 ++ [CallFlush rewriter])
  | Panicked => r
  end.

(** A string of white space only: every rune of the string, read as Go
    reads a string, is a white space of Unicode. *)
Definition allSpace (s : string) : bool :=
  forallb (fun ir => unicode.IsSpace ir.2) (strings.range s).

(** No opening parenthesis in a suffix token. *)
Fixpoint noOpen (s : string) : bool :=
  match s with
  | EmptyString => true
  | String a s' => negb (Ascii.eqb a "(") && noOpen s'
  end.

Section Notions.

Context {ext : Externals} {T : Type} {mapperOf : ModelMapper T}.

(** The resolver run for a requested model. *)
Definition resolve (fh : FallbackHandler T) (modelName : string)
  : Lookup (string * list string) :=
  resolveMappedModel fh modelName (normalize modelName) (thinkingSuffixOf modelName).

(** The mapping target of a requested model: the entry of the name as typed,
    or else the entry of its base name. *)
Definition mappingTarget (mapper : T) (modelName : string) : string :=
  let mapped := MapModel mapper modelName in
  if bool_decide (mapped = "") then MapModel mapper (normalize modelName) else mapped.

(** The candidate model built from a trimmed target: the suffix of the
    request is appended unless the target has one of its own. *)
Definition reattach (modelName target : string) : string :=
  if bool_decide (thinkingSuffixOf modelName ≠ "") then
    if negb (thinking.HasSuffix (thinking.ParseSuffix target))
    then target +:+ thinkingSuffixOf modelName
    else target
  else target.

Definition candidate (mapper : T) (modelName : string) : string :=
  reattach modelName (strings.TrimSpace (mappingTarget mapper modelName)).

(** What the resolver answers once it holds a target. *)
Definition answer (modelName target : string) : string * list string :=
  let trimmed := strings.TrimSpace target in
  if bool_decide (trimmed = "") then ("", [])
  else
    let model := reattach modelName trimmed in
    let ps := util_GetProviderName (normalize model) in
    if (length ps =? 0)%nat then ("", []) else (model, ps).

(** The header after [filterAntropicBetaHeader]. *)
Definition sanitizedHeader (h : gmap string (list string)) : gmap string (list string) :=
  let betaHeader := Header_Get h "Anthropic-Beta" in
  if bool_decide (betaHeader ≠ "") then
    let filtered := filterBetaFeatures betaHeader "context-1m-2025-08-07" in
    if bool_decide (filtered ≠ "") then Header_Set h "Anthropic-Beta" filtered
    else Header_Del h "Anthropic-Beta"
  else h.

Section Paths.

Variables (fh : FallbackHandler T) (handler : HandlerFunc) (c : Context).

(** The contexts the wrapper hands on: the request with its body restored;
    the same with the beta header sanitized; and the context of a mapped
    request. *)
Definition restored (body : bytes) : Context :=
  {| Request_ := {| URL_Path := URL_Path (Request_ c);
                    Body := NopCloser body;
                    Header := Header (Request_ c) |};
     Params := Params c;
     Keys := Keys c;
     Writer := Writer c |}.

Definition served (body : bytes) : Context :=
  {| Request_ := {| URL_Path := URL_Path (Request_ c);
                    Body := NopCloser body;
                    Header := sanitizedHeader (Header (Request_ c)) |};
     Params := Params c;
     Keys := Keys c;
     Writer := Writer c |}.

Definition mapped (body : bytes) (mappedModel modelName : string) : Context :=
  {| Request_ := {| URL_Path := URL_Path (Request_ c);
                    Body := NopCloser body;
                    Header := sanitizedHeader (Header (Request_ c)) |};
     Params := Params c;
     Keys := <[MappedModelContextKey := mappedModel]> (Keys c);
     Writer := NewResponseRewriter (Writer c) modelName |}.

(** The lookups made before a fallback, by mode. *)
Definition fallbackLookups (modelName : string) : list Call :=
  if forced fh
  then (resolve fh modelName).2 ++ [CallGetProviderName (normalize modelName)]
  else [CallGetProviderName (normalize modelName)] ++ (resolve fh modelName).2.

(** The six paths of the wrapper through a request. *)
Inductive Path : Run -> Prop :=
| Unreadable err :
    Body (Request_ c) = BrokenReader err ->
    Path (call handler c)
| NoModel bodyBytes :
    Body (Request_ c) = NopCloser bodyBytes ->
    extractModelFromRequest bodyBytes c = "" ->
    Path (call handler (restored bodyBytes))
| Local bodyBytes modelName p ps :
    Body (Request_ c) = NopCloser bodyBytes ->
    extractModelFromRequest bodyBytes c = modelName ->
    modelName ≠ "" ->
    util_GetProviderName (normalize modelName) = p :: ps ->
    (forced fh = true -> (resolve fh modelName).1.1 = "") ->
    Path (after ((if forced fh then (resolve fh modelName).2 else [])
                 ++ [CallGetProviderName (normalize modelName);
                     CallLogAmpRouting RouteTypeLocalProvider modelName
                       (normalize modelName) p (URL_Path (Request_ c))])
            (call handler (served bodyBytes)))
| Mapping bodyBytes modelName mappedModel mp mps :
    Body (Request_ c) = NopCloser bodyBytes ->
    extractModelFromRequest bodyBytes c = modelName ->
    modelName ≠ "" ->
    (resolve fh modelName).1 = (mappedModel, mp :: mps) ->
    mappedModel ≠ "" ->
    (forced fh = false -> util_GetProviderName (normalize modelName) = []) ->
    Path (after ((if forced fh then [] else [CallGetProviderName (normalize modelName)])
                 ++ (resolve fh modelName).2
                 ++ [CallLogAmpRouting RouteTypeModelMapping modelName mappedModel mp
                       (URL_Path (Request_ c))])
            (thenFlush (NewResponseRewriter (Writer c) modelName)
               (call handler
                  (mapped (rewriteModelInRequest bodyBytes mappedModel)
                     mappedModel modelName))))
| Credits bodyBytes modelName proxy :
    Body (Request_ c) = NopCloser bodyBytes ->
    extractModelFromRequest bodyBytes c = modelName ->
    modelName ≠ "" ->
    util_GetProviderName (normalize modelName) = [] ->
    (resolve fh modelName).1.1 = "" ->
    getProxy fh tt = Some proxy ->
    Path (roundTrip proxy (Writer c) (Request_ (restored bodyBytes)),
          restored bodyBytes,
          fallbackLookups modelName
          ++ [CallLogAmpRouting RouteTypeAmpCredits modelName "" ""
                (URL_Path (Request_ c));
              CallServeHTTP proxy (Writer c) (Request_ (restored bodyBytes))])
| NoProvider bodyBytes modelName :
    Body (Request_ c) = NopCloser bodyBytes ->
    extractModelFromRequest bodyBytes c = modelName ->
    modelName ≠ "" ->
    util_GetProviderName (normalize modelName) = [] ->
    (resolve fh modelName).1.1 = "" ->
    getProxy fh tt = None ->
    Path (after (fallbackLookups modelName
                 ++ [CallLogAmpRouting RouteTypeNoProvider modelName "" ""
                       (URL_Path (Request_ c))])
            (call handler (restored bodyBytes))).

End Paths.

End Notions.

(** The reading of the resolved-model invariant on the routings of a run: a
    resolved model is set and is not the requested model exactly on a
    ModelMapping decision. *)
Definition resolvedDiffersIffMapping (t : list Call) : Prop :=
  Forall (fun r => (resolvedModel r ≠ "" /\ resolvedModel r ≠ requestedModel r)
                   <-> routeType r = RouteTypeModelMapping)
    (routings t).

(** ** Scenarios on the concrete setting *)

Module Scenario.

Definition run (registry : list (string * list string))
    (fh : FallbackHandler (list (string * string))) (handler : HandlerFunc)
    (c : Context) : Run :=
  WrapHandler (ext := Demo.externals registry) fh handler c.

Definition resolved (registry : list (string * list string))
    (fh : FallbackHandler (list (string * string))) (modelName : string)
  : Lookup (string * list string) :=
  resolve (ext := Demo.externals registry) fh modelName.

(** A chat completion request for [model]. *)
Definition chat (model : string) : Context :=
  Demo.request "/v1/chat/completions" [] (Demo.modelBody model).

(** A generate-content request whose route names the model [gemini-pro]. *)
Definition gemini (body : bytes) : Context :=
  Demo.request "/v1beta/models/gemini-pro:generateContent"
    [("action", "gemini-pro:generateContent")] body.

(** The body [{"model":12}]. *)
Definition numericModel : bytes :=
  "{" +:+ Demo.q +:+ "model" +:+ Demo.q +:+ ":12}".

(** Registries: a provider for the requested model and for the mapped one;
    for the mapped one only; for the requested one only. *)
Definition both : list (string * list string) :=
  [("gpt-5", ["codex"]); ("local-model-a", ["claude"])].

Definition mappedOnly : list (string * list string) := [("local-model-a", ["claude"])].

Definition localOnly : list (string * list string) := [("gpt-5", ["codex"])].

(** White space on several bytes: the no-break space U+00A0 and the
    ideographic space U+3000, in UTF-8. *)
Definition nbsp : string := String "194" (String "160" "").

Definition ideographic : string := String "227" (String "128" (String "128" "")).

(** Mapping tables: the base name mapped; mapped to a padded target, with
    spaces and with white space on several bytes; the name as typed mapped to
    white space over a mapping of the base name. *)
Definition toLocalA : list (string * string) := [("gpt-5", "local-model-a")].

Definition padded : list (string * string) := [("gpt-5", " local-model-a ")].

Definition paddedWide : list (string * string) :=
  [("gpt-5", ideographic +:+ "local-model-a" +:+ nbsp)].

Definition blankRaw : list (string * string) :=
  [("gpt-5(xhigh)", " " +:+ nbsp +:+ ideographic); ("gpt-5", "local-model-a")].

(** A mapped request whose downstream handler panics. *)
Definition panicking : Run :=
  run mappedOnly (Demo.fallback Demo.noProxy toLocalA false) Demo.panics
    (chat "gpt-5(xhigh)").

(** The [model] field of the body [{"model":12}]. *)
Definition numericField : gjson.Result :=
  gjson_GetBytes (Externals := Demo.externals []) numericModel "model".

End Scenario.

(** ** Further notions on the calls of a run *)

Definition forwarded (e : Call) : option (ReverseProxy * ResponseWriter * Request) :=
  match e with
  | CallServeHTTP proxy w r => Some (proxy, w, r)
  | _ => None
  end.

(** The requests forwarded to the reverse proxy, with the writer given. *)
Definition proxyCalls (t : list Call) : list (ReverseProxy * ResponseWriter * Request) :=
  omap forwarded t.

Definition passedOn (e : Call) : option Request :=
  match e with
  | CallHandler c _ => Some (Request_ c)
  | CallServeHTTP _ _ r => Some r
  | _ => None
  end.

(** The requests passed on, to the downstream handler or to the proxy. *)
Definition downstream (t : list Call) : list Request := omap passedOn t.

Definition mapperAsked (e : Call) : option string :=
  match e with
  | CallMapModel name => Some name
  | _ => None
  end.

(** The names the mapper was asked for. *)
Definition mapperCalls (t : list Call) : list string := omap mapperAsked t.

Definition registryAsked (e : Call) : option string :=
  match e with
  | CallGetProviderName name => Some name
  | _ => None
  end.

(** The names the provider registry was asked for. *)
Definition registryCalls (t : list Call) : list string := omap registryAsked t.

(** No colon in a string. *)
Fixpoint noColon (s : string) : bool :=
  match s with
  | EmptyString => true
  | String a s' => negb (Ascii.eqb a ":") && noColon s'
  end.

(** Whether the body has a [model] field of string type (line 362). *)
Definition stringModelField `{Externals} (body : bytes) : bool :=
  gjson.Exists (gjson_GetBytes body "model")
  && bool_decide (gjson.Type' (gjson_GetBytes body "model") = gjson.String_).

(** The routes served locally, on which the beta header is sanitized. *)
Definition servedLocally (t : AmpRouteType) : bool :=
  match t with
  | RouteTypeLocalProvider | RouteTypeModelMapping => true
  | RouteTypeAmpCredits | RouteTypeNoProvider => false
  end.

(** ** Package [augplus]: the AugPlus compatible endpoints

    The handlers answer with [c.JSON(status, response)]; a handler is a
    function from the module and the context to the reply written.  The
    lock of the module is not modelled: the calls are taken one at a time. *)

Module augplus.

(** [config.Config] is declared outside the source files: the three fields
    the handlers read, at the types they are used with. *)
Record Config := {
  Host : string;
  Port : Z;
  APIKeys : list string
}.

(** handlers.go, lines 10-43: the objects of the API.  The request bodies
    are declared with their handlers. *)
Record VIP := {
  Product : string;
  Score : Z;
  ScoreUsed : Z
}.

Record User := {
  ID : string;
  Token : string;
  Email : string;
  VIP_ : option VIP
}.

Record PoolAccount := {
  account_Token : string;
  account_Host : string;
  account_Email : string;
  account_AccessToken : string
}.

Record PoolItem := {
  PoolID : string;
  Name : string
}.

(** The values the handlers put in a [gin.H], and the data of a response
    (an [interface{}]): nothing, a user, a pool account, or a [gin.H] of one
    entry. *)
Inductive Value :=
| Vips (list_ : list VIP)
| Pools (list_ : list PoolItem)
| Text (s : string)
| Flag (b : bool).

Inductive Data :=
| Nil
| OfUser (u : User)
| OfPoolAccount (a : PoolAccount)
| H (key : string) (value : Value).

Record Response := {
  Code : Z;
  Msg : string;
  Data_ : Data
}.

(** What [c.JSON] writes: the status and the response. *)
Record Reply := {
  status : Z;
  response : Response
}.

Definition StatusOK : Z := 200.

(** handlers.go, lines 46-52 and 55-60. *)
Definition success (data : Data) : Reply :=
  {| status := StatusOK;
     response := {| Code := 0; Msg := "success"; Data_ := data |} |}.

Definition fail (msg : string) : Reply :=
  {| status := StatusOK;
     response := {| Code := -1; Msg := msg; Data_ := Nil |} |}.

(** The request bodies: the user handlers, lines 12-16; pool_handlers.go,
    lines 10-19. *)
Record CardLoginRequest := {
  Card : string;
  login_Email : string;
  Agent : string
}.

Record PoolGainRequest := {
  gain_Product : string;
  gain_PoolID : string;
  Version : Z
}.

Record PoolListRequest := {
  list_Product : string
}.

(** [c.ShouldBindJSON(&req)] for a request type: the request bound, or an
    error.  The binder is gin's: any implementation. *)
Class Bindable (R : Type) := ShouldBindJSON : Context -> option R.

(** The clock and the random source: the text of
    [time.Now().Format("20060102150405")] and the bytes [rand.Read] gives. *)
Class Sources := {
  now : string;
  random : list ascii
}.

(** The module: its configuration, which may be absent, and whether its
    routes are registered. *)
Record Module_ := {
  cfg : option Config;
  registered : bool
}.

(** augplus.go, lines 24-26. *)
Definition New : Module_ := {| cfg := None; registered := false |}.

(** augplus.go, lines 29-31. *)
Definition Name_ (m : Module_) : string := "augplus".

(** [hex.EncodeToString]: two lower-case digits a byte, the high one first. *)
Definition hexDigit (n : N) : ascii :=
  match n with
  | 0%N => "0" | 1%N => "1" | 2%N => "2" | 3%N => "3"
  | 4%N => "4" | 5%N => "5" | 6%N => "6" | 7%N => "7"
  | 8%N => "8" | 9%N => "9" | 10%N => "a" | 11%N => "b"
  | 12%N => "c" | 13%N => "d" | 14%N => "e" | _ => "f"
  end.

Fixpoint EncodeToString (src : list ascii) : string :=
  match src with
  | [] => ""
  | v :: src' =>
      String (hexDigit (N.shiftr (N_of_ascii v) 4))
        (String (hexDigit (N.land (N_of_ascii v) 15)) (EncodeToString src'))
  end.

(** [make([]byte, n)] and [rand.Read(b)]: the bytes of the source, over
    zeros where the source gives none. *)
Definition make (n : nat) : list ascii := repeat zero n.

Definition rand_Read `{Sources} (b : list ascii) : list ascii :=
  take (length b) random ++ drop (length random) b.

Section Handlers.

Context {sources : Sources}.
Context {bindCardLogin : Bindable CardLoginRequest}.
Context {bindPoolGain : Bindable PoolGainRequest}.
Context {bindPoolList : Bindable PoolListRequest}.

(** The user handlers (src/unnamed/part_000), lines 19-23. *)
Definition generateToken : string :=
  let b := make 32 in
  let b := rand_Read b in
  "local_" +:+ EncodeToString b.

(** Lines 27-52. *)
Definition cardLogin (m : Module_) (c : Context) : Reply :=
  match ShouldBindJSON (R := CardLoginRequest) c with
  | None => fail "invalid request body"
  | Some req =>
      if bool_decide (Card req = "") then fail "card is required"
      else
        let user :=
          {| ID := "local_user_" +:+ now;
             Token := generateToken;
             Email := login_Email req;
             VIP_ := Some {| Product := "augment"; Score := 999999; ScoreUsed := 0 |} |} in
        success (OfUser user)
  end.

(** Lines 56-70. *)
Definition whoami (m : Module_) (c : Context) : Reply :=
  let user :=
    {| ID := "local_user";
       Token := Header_Get (Header (Request_ c)) "X-Auth-Token";
       Email := "local@cliproxyapi.local";
       VIP_ := Some {| Product := "augment"; Score := 999999; ScoreUsed := 0 |} |} in
  success (OfUser user).

(** Lines 73-75. *)
Definition logout (m : Module_) (c : Context) : Reply := success Nil.

(** Lines 79-87. *)
Definition getVips (m : Module_) (c : Context) : Reply :=
  let vips :=
    [ {| Product := "augment"; Score := 999999; ScoreUsed := 0 |};
      {| Product := "windsurf"; Score := 999999; ScoreUsed := 0 |};
      {| Product := "augment-proxy"; Score := 999999; ScoreUsed := 0 |} ] in
  success (H "list" (Vips vips)).

(** pool_handlers.go, lines 23-67.  [fmt.Sprintf] prints the port in
    decimal. *)
Definition poolGain (m : Module_) (c : Context) : Reply :=
  match ShouldBindJSON (R := PoolGainRequest) c with
  | None => fail "invalid request body"
  | Some req =>
      let cfg := cfg m in
      let host := "127.0.0.1" in
      let port := 8317 in
      let '(host, port) :=
        match cfg with
        | Some cfg =>
            (if bool_decide (Host cfg ≠ "") && bool_decide (Host cfg ≠ "0.0.0.0")
             then Host cfg else host,
             if Port cfg >? 0 then Port cfg else port)
        | None => (host, port)
        end in
      let apiKey := "my-ampcode-key" in
      let apiKey :=
        match cfg with
        | Some cfg =>
            if (0 <? length (APIKeys cfg))%nat
            then match APIKeys cfg with k :: _ => k | [] => apiKey end
            else apiKey
        | None => apiKey
        end in
      if bool_decide (gain_Product req = "windsurf") then
        success (OfPoolAccount
                   {| account_Token := ""; account_Host := "";
                      account_Email := "local@cliproxyapi.local";
                      account_AccessToken := apiKey |})
      else
        success (OfPoolAccount
                   {| account_Token := apiKey;
                      account_Host := host +:+ ":" +:+ pretty port;
                      account_Email := "local@cliproxyapi.local";
                      account_AccessToken := "" |})
  end.

(** pool_handlers.go, lines 71-83. *)
Definition poolList (m : Module_) (c : Context) : Reply :=
  match ShouldBindJSON (R := PoolListRequest) c with
  | None => fail "invalid request body"
  | Some req =>
      let pools := [ {| PoolID := "local"; Name := "本地 CLIProxyAPI" |} ] in
      success (H "list" (Pools pools))
  end.

(** proxy_handlers.go, lines 11-31. *)
Definition getProxy (m : Module_) (c : Context) : Reply :=
  let cfg := cfg m in
  let host := "127.0.0.1" in
  let port := 8317 in
  let '(host, port) :=
    match cfg with
    | Some cfg =>
        (if bool_decide (Host cfg ≠ "") && bool_decide (Host cfg ≠ "0.0.0.0")
         then Host cfg else host,
         if Port cfg >? 0 then Port cfg else port)
    | None => (host, port)
    end in
  let proxyURL := "http://" +:+ host +:+ ":" +:+ pretty port +:+ "/" in
  success (H "proxy" (Text proxyURL)).

(** proxy_handlers.go, lines 35-37. *)
Definition vipMerge (m : Module_) (c : Context) : Reply :=
  success (H "merged" (Flag true)).

End Handlers.

(** The handlers of the module. *)
Inductive Endpoint :=
| CardLogin | Whoami | Logout | GetVips | PoolGain | PoolList | GetProxy | VipMerge.

(** [gin.Engine] as the module uses it.  [engine.POST(path, handler)] adds
    a route to the engine, or panics, as gin does for a path it cannot add
    to its routes (one that is taken, or clashes with a wildcard).  The
    router is gin's: any implementation. *)
Class Router (E : Type) := engine_POST : E -> string -> Endpoint -> Outcome E.

(** A computation on the engine: how it ends and the engine it leaves.  A
    panic skips what follows. *)
Definition Setup (E A : Type) : Type := E -> Outcome A * E.

#[global] Instance Setup_ret {E} : MRet (Setup E) := fun A a engine => (Returned a, engine).

#[global] Instance Setup_bind {E} : MBind (Setup E) := fun A B f m engine =>
  match m engine with
  | (Returned a, engine') => f a engine'
  | (Panicked, engine') => (Panicked, engine')
  end.

(** [modules.Context]: the engine and the configuration handed to
    [Register]. *)
Record ModuleContext (E : Type) := {
  Engine : E;
  Config_ : option Config
}.

Arguments Engine {E} _.
Arguments Config_ {E} _.

Section Registration.

Context {E : Type} {router : Router E}.

(** [engine.POST(path, handler)]; the engine is left as it was by a call
    that panics. *)
Definition POST (path : string) (e : Endpoint) : Setup E unit := fun engine =>
  match engine_POST engine path e with
  | Returned engine' => (Returned tt, engine')
  | Panicked => (Panicked, engine)
  end.

(** augplus.go, lines 59-75. *)
Definition registerRoutes (m : Module_) : Setup E unit :=
  POST "/api/users/card-login" CardLogin;;
  POST "/api/users/whoami" Whoami;;
  POST "/api/users/logout" Logout;;
  POST "/api/users/vips" GetVips;;
  POST "/api/pools/gain" PoolGain;;
  POST "/api/pools/gain_list" PoolList;;
  POST "/api/v1/get-proxy" GetProxy;;
  POST "/api/vips/merge" VipMerge.

(** augplus.go, lines 34-48: how the call ends, the module and the engine
    after it.  The error returned is always nil; a panic of the router
    unwinds [Register] after the configuration is stored and before the
    module is marked as registered. *)
Definition Register (m : Module_) (ctx : ModuleContext E) : Outcome unit * Module_ * E :=
  if registered m then (Returned tt, m, Engine ctx)
  else
    let m := {| cfg := Config_ ctx; registered := registered m |} in
    match registerRoutes m (Engine ctx) with
    | (Returned _, engine) => (Returned tt, {| cfg := cfg m; registered := true |}, engine)
    | (Panicked, engine) => (Panicked, m, engine)
    end.

End Registration.

(** augplus.go, lines 51-56. *)
Definition OnConfigUpdated (m : Module_) (c : option Config) : Module_ :=
  {| cfg := c; registered := registered m |}.

(** The handler an endpoint names. *)
Definition serve `{Sources} `{Bindable CardLoginRequest} `{Bindable PoolGainRequest}
    `{Bindable PoolListRequest} (e : Endpoint) (m : Module_) (c : Context) : Reply :=
  match e with
  | CardLogin => cardLogin m c
  | Whoami => whoami m c
  | Logout => logout m c
  | GetVips => getVips m c
  | PoolGain => poolGain m c
  | PoolList => poolList m c
  | GetProxy => getProxy m c
  | VipMerge => vipMerge m c
  end.

End augplus.

(** The routes of the module, in the order of their registration. *)
Definition augplusRoutes : list (string * augplus.Endpoint) :=
  [ ("/api/users/card-login", augplus.CardLogin);
    ("/api/users/whoami", augplus.Whoami);
    ("/api/users/logout", augplus.Logout);
    ("/api/users/vips", augplus.GetVips);
    ("/api/pools/gain", augplus.PoolGain);
    ("/api/pools/gain_list", augplus.PoolList);
    ("/api/v1/get-proxy", augplus.GetProxy);
    ("/api/vips/merge", augplus.VipMerge) ].

(** Adding routes to an engine one after the other: the engine after the
    last, or a panic of the router on one of them. *)
Fixpoint postAll {E} `{augplus.Router E} (routes : list (string * augplus.Endpoint))
    (engine : E) : Outcome E :=
  match routes with
  | [] => Returned engine
  | (path, e) :: routes' =>
      match augplus.engine_POST engine path e with
      | Returned engine' => postAll routes' engine'
      | Panicked => Panicked
      end
  end.

(** Hexadecimal digits only. *)
Definition isHexDigit (a : ascii) : bool :=
  let n := nat_of_ascii a in
  ((48 <=? n) && (n <=? 57))%nat || ((97 <=? n) && (n <=? 102))%nat.

Fixpoint allHex (s : string) : bool :=
  match s with
  | EmptyString => true
  | String a s' => isHexDigit a && allHex s'
  end.

(** ** A concrete setting for the AugPlus endpoints *)

Module AugDemo.

Definition isObject (json : bytes) : bool :=
  match MiniJson.skipSpace json with
  | String a _ => Ascii.eqb a "{"
  | EmptyString => false
  end.

Definition text (json : bytes) (key : string) : string :=
  gjson.String (MiniJson.GetBytes json key).

(** A binder: the body must be a json object; a field that is missing is
    left at its zero value. *)
Definition bind {R : Type} (read : bytes -> R) (c : Context) : option R :=
  match Body (Request_ c) with
  | NopCloser json => if isObject json then Some (read json) else None
  | BrokenReader _ => None
  end.

#[global] Instance bindCardLogin : augplus.Bindable augplus.CardLoginRequest :=
  bind (fun json =>
          {| augplus.Card := text json "card";
             augplus.login_Email := text json "email";
             augplus.Agent := text json "agent" |}).

#[global] Instance bindPoolGain : augplus.Bindable augplus.PoolGainRequest :=
  bind (fun json =>
          {| augplus.gain_Product := text json "product";
             augplus.gain_PoolID := text json "pool_id";
             augplus.Version := 0 |}).

#[global] Instance bindPoolList : augplus.Bindable augplus.PoolListRequest :=
  bind (fun json => {| augplus.list_Product := text json "product" |}).

(** A clock, and a random source that gives three bytes only. *)
#[global] Instance sources : augplus.Sources :=
  {| augplus.now := "20250101093000";
     augplus.random := ["171"%char; "205"%char; "018"%char] |}.

(** The body [{"<key>":"<value>"}], posted on [path]. *)
Definition post (path key value : string) : Context :=
  Demo.request path []
    ("{" +:+ Demo.q +:+ key +:+ Demo.q +:+ ":" +:+ Demo.q +:+ value +:+ Demo.q +:+ "}").

(** The body [{"card":"<card>","email":"<email>"}], posted for a login. *)
Definition login (card email : string) : Context :=
  Demo.request "/api/users/card-login" []
    ("{" +:+ Demo.q +:+ "card" +:+ Demo.q +:+ ":" +:+ Demo.q +:+ card +:+ Demo.q +:+ ","
     +:+ Demo.q +:+ "email" +:+ Demo.q +:+ ":" +:+ Demo.q +:+ email +:+ Demo.q +:+ "}").

(** An engine as the list of its routes, in the order they were added; a
    path that is taken is refused. *)
Record Route := {
  method : string;
  pattern : string;
  endpoint : augplus.Endpoint
}.

#[global] Instance listRouter : augplus.Router (list Route) := fun engine path e =>
  if existsb (fun r => String.eqb (pattern r) path) engine then Panicked
  else Returned (engine ++ [{| method := "POST"; pattern := path; endpoint := e |}]).

(** A module configured with an address of its own, and one key. *)
Definition lan : augplus.Module_ :=
  {| augplus.cfg :=
       Some {| augplus.Host := "10.0.0.5"; augplus.Port := 9000;
               augplus.APIKeys := ["key-one"] |};
     augplus.registered := true |}.

(** A module configured to listen on every interface, with two keys. *)
Definition wildcard : augplus.Module_ :=
  {| augplus.cfg :=
       Some {| augplus.Host := "0.0.0.0"; augplus.Port := 9000;
               augplus.APIKeys := ["key-one"; "key-two"] |};
     augplus.registered := true |}.

(** The registration of a new module on an engine without routes; and that
    of a second new module on the engine the first one leaves. *)
Definition fresh : Outcome unit * augplus.Module_ * list Route :=
  augplus.Register augplus.New {| augplus.Engine := []; augplus.Config_ := augplus.cfg lan |}.

Definition second : Outcome unit * augplus.Module_ * list Route :=
  augplus.Register augplus.New {| augplus.Engine := fresh.2; augplus.Config_ := None |}.

End AugDemo.

(** ** Further scenarios *)

Module Cases.

(** A request whose body cannot be read. *)
Definition broken : Context :=
  {| Request_ := {| URL_Path := "/v1/chat/completions";
                    Body := BrokenReader "unexpected EOF";
                    Header := ∅ |};
     Params := [];
     Keys := ∅;
     Writer := ClientWriter |}.

(** A request that names no model, in its body nor on its route. *)
Definition anonymous : Context := Demo.request "/v1/chat/completions" [] "{}".

(** A chat request with a beta header of three features. *)
Definition withBeta (model : string) : Context :=
  {| Request_ := {| URL_Path := "/v1/messages";
                    Body := NopCloser (Demo.modelBody model);
                    Header := {[ "Anthropic-Beta" :=
                                   ["tools-2024,context-1m-2025-08-07,vision"] ]} |};
     Params := [];
     Keys := ∅;
     Writer := ClientWriter |}.

(** A request of the AMP CLI, the model in the [path] parameter. *)
Definition publishers : Context :=
  Demo.request "/api/provider/google/v1beta1/publishers/google/models/gemini-3-pro-preview:streamGenerateContent"
    [("path", "/publishers/google/models/gemini-3-pro-preview:streamGenerateContent")]
    "{}".

End Cases.

(** * Properties *)

(** ** Running the computations *)

Ltac gin :=
  unfold andThen, ServeHTTP, mbind, mret, Gin_bind, Gin_ret, Lookup_bind, Lookup_ret,
    getContext, setContext, emit, lookup, setRequestBody, Set_, setWriter,
    GetProviderName, mapper_MapModel in *;
  cbn in *.

#[global] Arguments strings.TrimSpace : simpl never.
#[global] Arguments thinking.ParseSuffix : simpl never.
#[global] Arguments normalize : simpl never.
#[global] Arguments thinkingSuffixOf : simpl never.
#[global] Arguments rewriteModelInRequest : simpl never.
#[global] Arguments extractModelFromRequest : simpl never.

Section Facts.

Context {ext : Externals} {T : Type} {mapperOf : ModelMapper T}.

(** The header filter returns, and changes the headers only. *)
Lemma filterAntropicBetaHeader_run (c : Context) :
  filterAntropicBetaHeader c
  = (Returned tt,
     with_Request c (Request_with_Header (Request_ c) (sanitizedHeader (Header (Request_ c)))),
     []).
Proof.
  destruct c as [[] ? ? ?].
  unfold filterAntropicBetaHeader, sanitizedHeader. gin.
  repeat case_bool_decide; reflexivity.
Qed.

(** The resolver, in terms of the target it looks up: what it returns, and
    the lookups it makes. *)
Lemma resolve_value (fh : FallbackHandler T) (modelName : string) :
  (resolve fh modelName).1
  = match modelMapper fh with
    | None => ("", [])
    | Some mapper => answer modelName (mappingTarget mapper modelName)
    end.
Proof.
  unfold resolve, resolveMappedModel, answer, mappingTarget, reattach, normalize.
  destruct (modelMapper fh) as [mapper|]; [|reflexivity].
  gin.
  destruct (bool_decide (MapModel mapper modelName = "")); cbn;
    repeat (case_bool_decide; cbn); try reflexivity; try congruence;
    repeat match goal with |- context [(length ?l =? 0)%nat] => destruct (length l =? 0)%nat end;
    reflexivity.
Qed.

Lemma resolve_calls (fh : FallbackHandler T) (modelName : string) :
  (resolve fh modelName).2
  = match modelMapper fh with
    | None => []
    | Some mapper =>
        CallMapModel modelName
        :: (if bool_decide (MapModel mapper modelName = "")
            then [CallMapModel (normalize modelName)] else [])
        ++ (if bool_decide (strings.TrimSpace (mappingTarget mapper modelName) = "")
            then [] else [CallGetProviderName (normalize (candidate mapper modelName))])
    end.
Proof.
  unfold resolve, resolveMappedModel, candidate, mappingTarget, reattach, normalize.
  destruct (modelMapper fh) as [mapper|]; [|reflexivity].
  gin.
  destruct (bool_decide (MapModel mapper modelName = "")); cbn;
    repeat (case_bool_decide; cbn); try reflexivity; try congruence;
    repeat match goal with |- context [(length ?l =? 0)%nat] => destruct (length l =? 0)%nat end;
    reflexivity.
Qed.

Lemma resolve_lookups (fh : FallbackHandler T) (modelName : string) :
  forallb isLookup (resolve fh modelName).2 = true.
Proof.
  rewrite resolve_calls. destruct (modelMapper fh); [|reflexivity].
  repeat case_bool_decide; reflexivity.
Qed.

Lemma answer_usable (modelName target mappedModel : string) (ps : list string) :
  answer modelName target = (mappedModel, ps) -> mappedModel ≠ "" ->
  ps = util_GetProviderName (normalize mappedModel) /\ ps ≠ []
  /\ mappedModel = reattach modelName (strings.TrimSpace target).
Proof.
  unfold answer. case_bool_decide; [intros [= <- <-]; congruence|].
  destruct (util_GetProviderName _) as [|p ps'] eqn:E; cbn; [intros [= <- <-]; congruence|].
  intros [= <- <-] _. rewrite E. done.
Qed.

(** A model returned by the resolver comes with its providers. *)
Lemma resolve_usable (fh : FallbackHandler T) (modelName mappedModel : string) ps :
  (resolve fh modelName).1 = (mappedModel, ps) -> mappedModel ≠ "" ->
  ps = util_GetProviderName (normalize mappedModel) /\ ps ≠ [].
Proof.
  rewrite resolve_value. destruct (modelMapper fh); [|intros [= <- <-]; congruence].
  intros E N. destruct (answer_usable _ _ _ _ E N) as (? & ? & ?). done.
Qed.

(** The extractor reads the parameters of the context only. *)
Lemma extract_params (body : bytes) (c1 c2 : Context) :
  Params c1 = Params c2 ->
  extractModelFromRequest body c1 = extractModelFromRequest body c2.
Proof. unfold extractModelFromRequest. intros ->. reflexivity. Qed.

Ltac finish_path :=
  rewrite ?filterAntropicBetaHeader_run;
  unfold call, after, thenFlush, restored, served, mapped,
    with_Request, with_Keys, with_Writer, Request_with_Body, Request_with_Header;
  match goal with c : Context |- _ => destruct c as [[] ? ? ?] end;
  cbn;
  repeat match goal with
         | |- context [?h ?x] =>
             match type of h with HandlerFunc => destruct (h x) as [[[[]|] ?] ?] end
         end;
  cbn; rewrite ?app_nil_r, <- ?app_assoc; reflexivity.

(** Every run of the wrapper follows one of the six paths. *)
Lemma WrapHandler_path (fh : FallbackHandler T) (handler : HandlerFunc) (c : Context) :
  Path fh handler c (WrapHandler fh handler c).
Proof.
  assert (L : forall r r' : Run, Path fh handler c r -> r = r' -> Path fh handler c r')
    by (intros ? ? ? <-; assumption).
  unfold WrapHandler. gin. unfold io_ReadAll.
  destruct (Body (Request_ c)) as [bodyBytes|err] eqn:B; cbn.
  2: { eapply L; [apply (Unreadable _ _ _ err); assumption|].
       unfold call. destruct (handler _) as [[[] ?] ?]; reflexivity. }
  match goal with |- context [extractModelFromRequest bodyBytes ?x] =>
    rewrite (extract_params bodyBytes x c eq_refl) end.
  remember (extractModelFromRequest bodyBytes c) as modelName eqn:EM.
  symmetry in EM.
  case_bool_decide as NE; cbn.
  { eapply L; [apply (NoModel _ _ _ bodyBytes); [assumption|]|].
    - rewrite EM. assumption.
    - unfold call, restored. destruct c as [[] ? ? ?]; cbn.
      destruct (handler _) as [[[] ?] ?]; reflexivity. }
  change (match forceModelMappings fh with Some f => f tt | None => false end)
    with (forced fh).
  change (resolveMappedModel fh modelName (thinking.ModelName (thinking.ParseSuffix modelName))
            (if thinking.HasSuffix (thinking.ParseSuffix modelName)
             then "(" +:+ thinking.RawSuffix (thinking.ParseSuffix modelName) +:+ ")"
             else ""))
    with (resolve fh modelName).
  change (thinking.ModelName (thinking.ParseSuffix modelName)) with (normalize modelName).
  pose proof (resolve_usable fh modelName) as U.
  destruct (resolve fh modelName) as [[mm mps] asked] eqn:R. cbn in U |- *.
  specialize (U mm mps eq_refl).
  destruct (forced fh) eqn:F; cbn.
  - case_bool_decide as M; cbn.
    + destruct (U M) as [-> Hps].
      destruct (util_GetProviderName (normalize mm)) as [|mp mps'] eqn:P; [done|]. cbn.
      eapply L; [apply (Mapping _ _ _ bodyBytes modelName mm mp mps'); eauto|].
      * rewrite R. reflexivity.
      * rewrite F. discriminate.
      * rewrite R, F. finish_path.
    + assert (mm = "") as -> by (destruct (decide (mm = "")); [done|tauto]).
      destruct (util_GetProviderName (normalize modelName)) as [|p ps] eqn:P; cbn.
      * destruct (getProxy fh tt) as [proxy|] eqn:G; cbn.
        -- eapply L; [apply (Credits _ _ _ bodyBytes modelName proxy); eauto|].
           ++ rewrite R. reflexivity.
           ++ unfold fallbackLookups. rewrite R, F. finish_path.
        -- eapply L; [apply (NoProvider _ _ _ bodyBytes modelName); eauto|].
           ++ rewrite R. reflexivity.
           ++ unfold fallbackLookups. rewrite R, F. finish_path.
      * eapply L; [apply (Local _ _ _ bodyBytes modelName p ps); eauto|].
        -- rewrite R. reflexivity.
        -- rewrite R, F. finish_path.
  - destruct (util_GetProviderName (normalize modelName)) as [|p ps] eqn:P; cbn.
    + case_bool_decide as M; cbn.
      * destruct (U M) as [-> Hps].
        destruct (util_GetProviderName (normalize mm)) as [|mp mps'] eqn:P'; [done|]. cbn.
        eapply L; [apply (Mapping _ _ _ bodyBytes modelName mm mp mps'); eauto|].
        -- rewrite R. reflexivity.
        -- rewrite R, F. finish_path.
      * assert (mm = "") as -> by (destruct (decide (mm = "")); [done|tauto]).
        destruct (getProxy fh tt) as [proxy|] eqn:G; cbn.
        -- eapply L; [apply (Credits _ _ _ bodyBytes modelName proxy); eauto|].
           ++ rewrite R. reflexivity.
           ++ unfold fallbackLookups. rewrite R, F. finish_path.
        -- eapply L; [apply (NoProvider _ _ _ bodyBytes modelName); eauto|].
           ++ rewrite R. reflexivity.
           ++ unfold fallbackLookups. rewrite R, F. finish_path.
    + eapply L; [apply (Local _ _ _ bodyBytes modelName p ps); eauto|].
      * rewrite F. discriminate.
      * rewrite F. finish_path.
Qed.

End Facts.
(** ** Strings *)

#[local] Arguments String.append !_ _ / : simpl nomatch.

Lemma substring_all (s : string) : String.substring 0 (String.length s) s = s.
Proof. induction s as [|a s IH]; cbn; [reflexivity|]. rewrite IH. reflexivity. Qed.

Lemma sliceFrom_app (pre rest : string) :
  strings.sliceFrom (pre +:+ rest) (Z.of_nat (String.length pre)) = rest.
Proof.
  unfold strings.sliceFrom. rewrite Nat2Z.id.
  induction pre as [|a pre IH]; cbn.
  - rewrite Nat.sub_0_r. apply substring_all.
  - exact IH.
Qed.

Lemma append_assoc (s t u : string) : (s +:+ t) +:+ u = s +:+ t +:+ u.
Proof. induction s as [|a s IH]; cbn; [reflexivity|]. rewrite IH. reflexivity. Qed.

Lemma append_length (s t : string) :
  String.length (s +:+ t) = (String.length s + String.length t)%nat.
Proof. induction s as [|a s IH]; cbn; [reflexivity|]. rewrite IH. reflexivity. Qed.

Lemma substring_none (n : nat) (s : string) : String.substring n 0 s = "".
Proof. revert s. induction n as [|n IH]; intros [|a s]; cbn; auto. Qed.

Lemma byte_bounds (a : ascii) : 0 <= byte a < 256.
Proof.
  unfold byte. pose proof (N_ascii_bounded a) as B. lia.
Qed.

(** On ASCII, the white space of Unicode is that of the table. *)
Lemma IsSpace_ascii (c : Z) :
  0 <= c < 0x80 -> unicode.IsSpace c = strings.asciiSpace c.
Proof.
  intros C. unfold unicode.IsSpace, strings.asciiSpace, uint32, unicode.MaxLatin1.
  rewrite Z.mod_small by lia.
  replace (c <=? 0xFF) with true by (symmetry; apply Z.leb_le; lia).
  replace (c =? 0x85) with false by (symmetry; apply Z.eqb_neq; lia).
  replace (c =? 0xA0) with false by (symmetry; apply Z.eqb_neq; lia).
  rewrite !orb_false_r. reflexivity.
Qed.

(** An ASCII byte is a rune of width 1. *)
Lemma DecodeRuneInString_ascii (a : ascii) (rest : string) :
  byte a < 0x80 -> utf8.DecodeRuneInString (String a rest) = (byte a, 1).
Proof.
  intros A. pose proof (byte_bounds a) as B.
  unfold utf8.DecodeRuneInString.
  replace (len (String a rest) <? 1) with false
    by (symmetry; apply Z.ltb_ge; unfold len; cbn [String.length]; lia).
  change (byteAt (String a rest) 0) with (byte a).
  unfold utf8.first.
  replace (byte a <=? 0x7F) with true by (symmetry; apply Z.leb_le; lia).
  change (utf8.as_ >=? utf8.as_) with true. cbv iota.
  change (Z.shiftr (int32 (Z.shiftl utf8.as_ 31)) 31) with 0.
  change (Z.lnot 0) with (-1).
  rewrite Z.land_m1_r, Z.land_0_r, Z.lor_0_r. reflexivity.
Qed.

(** The runes of a range do not depend on the index it starts at. *)
Lemma rangeFrom_runes (s : string) (i j : Z) (skip : nat) :
  (strings.rangeFrom s i skip).*2 = (strings.rangeFrom s j skip).*2.
Proof.
  revert i j skip. induction s as [|a s IH]; intros i j skip; [reflexivity|].
  cbn [strings.rangeFrom]. destruct skip as [|skip]; [|apply IH].
  destruct (utf8.DecodeRuneInString (String a s)) as [r size].
  cbn. f_equal. apply IH.
Qed.

Lemma allSpace_runes (s : string) :
  allSpace s = forallb unicode.IsSpace (strings.range s).*2.
Proof.
  unfold allSpace. induction (strings.range s) as [|ir l IH]; cbn; [reflexivity|].
  rewrite IH. reflexivity.
Qed.

(** A string of white space that begins with an ASCII byte. *)
Lemma allSpace_ascii (a : ascii) (rest : string) :
  byte a < 0x80 -> allSpace (String a rest) = true ->
  strings.asciiSpace (byte a) = true /\ allSpace rest = true.
Proof.
  intros A. pose proof (byte_bounds a) as B.
  rewrite !allSpace_runes. unfold strings.range. cbn [strings.rangeFrom].
  rewrite (DecodeRuneInString_ascii a rest A).
  change (Z.to_nat 1 - 1)%nat with 0%nat. cbn [fmap list_fmap snd forallb].
  rewrite (rangeFrom_runes rest (0 + 1) 0 0).
  intros [S R]%andb_prop. rewrite IsSpace_ascii in S by lia. done.
Qed.

(** No rune of a string of white space stops [indexFunc]. *)
Lemma indexFunc_allSpace (s : string) :
  allSpace s = true -> strings.indexFunc s unicode.IsSpace false = -1.
Proof.
  unfold allSpace, strings.indexFunc.
  induction (strings.range s) as [|ir l IH]; cbn; [reflexivity|].
  intros [S R]%andb_prop. rewrite S. cbn. auto.
Qed.

Lemma TrimFunc_allSpace (s : string) :
  allSpace s = true -> strings.TrimFunc s unicode.IsSpace = "".
Proof.
  intros W. unfold strings.TrimFunc, strings.TrimLeftFunc.
  rewrite (indexFunc_allSpace s W). reflexivity.
Qed.

Lemma trimStop_at_start (s : string) (stop : nat) :
  strings.trimStop s (Z.of_nat stop) stop = "".
Proof.
  destruct stop as [|stop]; cbn [strings.trimStop]; unfold strings.slice.
  - apply substring_none.
  - replace (Z.of_nat (S stop) >? Z.of_nat (S stop)) with false
      by (symmetry; rewrite Z.gtb_ltb; apply Z.ltb_ge; lia).
    rewrite Z.sub_diag. apply substring_none.
Qed.

Lemma trimStart_allSpace (rest pre : string) :
  allSpace rest = true ->
  strings.trimStart (pre +:+ rest) rest (Z.of_nat (String.length pre)) = "".
Proof.
  revert pre. induction rest as [|a rest IH]; intros pre W.
  - cbn [strings.trimStart].
    replace (String.length pre) with (String.length (pre +:+ "")) at 1
      by (rewrite append_length; cbn; lia).
    apply trimStop_at_start.
  - cbn [strings.trimStart]. cbv zeta.
    destruct (byte a >=? utf8.RuneSelf) eqn:A.
    + rewrite sliceFrom_app. apply TrimFunc_allSpace, W.
    + rewrite Z.geb_leb in A. apply Z.leb_gt in A.
      destruct (allSpace_ascii a rest A W) as [S R]. rewrite S.
      replace (Z.of_nat (String.length pre) + 1)
        with (Z.of_nat (String.length (pre +:+ String a "")))
        by (rewrite append_length; cbn; lia).
      replace (pre +:+ String a rest) with ((pre +:+ String a "") +:+ rest)
        by (rewrite append_assoc; reflexivity).
      apply IH, R.
Qed.

(** Go's [TrimSpace] leaves nothing of a string of white space. *)
Lemma TrimSpace_allSpace (s : string) : allSpace s = true -> strings.TrimSpace s = "".
Proof. intros W. apply (trimStart_allSpace s "" W). Qed.

Lemma splitLastOpen_noOpen (s : string) : noOpen s = true -> thinking.splitLastOpen s = None.
Proof.
  induction s as [|a s IH]; cbn; [reflexivity|].
  intros [Ha Hs]%andb_prop. rewrite (IH Hs).
  destruct (Ascii.eqb a "("); [discriminate|reflexivity].
Qed.

Lemma splitLastOpen_app (base rest : string) :
  noOpen rest = true ->
  thinking.splitLastOpen (base +:+ String "(" rest) = Some (base, rest).
Proof.
  intros Hr. induction base as [|a base IH]; cbn.
  - rewrite (splitLastOpen_noOpen rest Hr). reflexivity.
  - rewrite IH. reflexivity.
Qed.

Lemma dropClose_app (s : string) : thinking.dropClose (s +:+ ")") = Some s.
Proof.
  induction s as [|a s IH]; cbn; [reflexivity|].
  rewrite IH. destruct (s +:+ ")") eqn:E; [destruct s; discriminate|reflexivity].
Qed.

Lemma noOpen_app (s t : string) : noOpen (s +:+ t) = noOpen s && noOpen t.
Proof. induction s as [|a s IH]; cbn; [reflexivity|]. rewrite IH, andb_assoc. reflexivity. Qed.

(** The normalizer on a name of the form [base(s)]. *)
Lemma ParseSuffix_form (base s : string) :
  noOpen s = true ->
  thinking.ParseSuffix (base +:+ "(" +:+ s +:+ ")")
  = {| thinking.ModelName := base; thinking.HasSuffix := true; thinking.RawSuffix := s |}.
Proof.
  intros Hs. unfold thinking.ParseSuffix.
  change (base +:+ "(" +:+ s +:+ ")") with (base +:+ String "(" (s +:+ ")")).
  rewrite splitLastOpen_app by (rewrite noOpen_app, Hs; reflexivity).
  rewrite dropClose_app. reflexivity.
Qed.

Lemma splitLastOpen_length (s base rest : string) :
  thinking.splitLastOpen s = Some (base, rest) ->
  String.length s = S (String.length base + String.length rest).
Proof.
  revert base rest. induction s as [|a s IH]; cbn; [discriminate|].
  intros base rest. destruct (thinking.splitLastOpen s) as [[b t]|].
  - intros [= <- <-]. cbn. rewrite (IH b t eq_refl). reflexivity.
  - destruct (Ascii.eqb a "("); [|discriminate]. intros [= <- <-]. reflexivity.
Qed.

(** A name is its own base name exactly when it carries no suffix. *)
Lemma normalize_fixed (modelName : string) :
  normalize modelName = modelName
  <-> thinking.HasSuffix (thinking.ParseSuffix modelName) = false.
Proof.
  unfold normalize, thinking.ParseSuffix.
  destruct (thinking.splitLastOpen modelName) as [[base rest]|] eqn:E; [|done].
  destruct (thinking.dropClose rest); [|done]. cbn.
  apply splitLastOpen_length in E. split; [|discriminate].
  intros ->. lia.
Qed.

(** ** Calls of a run *)

Lemma call_made (handler : HandlerFunc) (c : Context) :
  (call handler c).2 = [CallHandler c (handler c).2].
Proof. unfold call. destruct (handler c) as [[? ?] ?]. reflexivity. Qed.

Lemma call_outcome (handler : HandlerFunc) (c : Context) :
  (call handler c).1.1 = (handler c).1.1.
Proof. unfold call. destruct (handler c) as [[? ?] ?]. reflexivity. Qed.

Lemma thenFlush_made (rewriter : ResponseWriter) (r : Run) :
  (thenFlush rewriter r).2
  = r.2 ++ match r.1.1 with Returned _ => [CallFlush rewriter] | Panicked => [] end.
Proof. unfold thenFlush. destruct r as [[[] ?] ?]; cbn; rewrite ?app_nil_r; reflexivity. Qed.

Lemma after_made (pre : list Call) (r : Run) : (after pre r).2 = pre ++ r.2.
Proof. reflexivity. Qed.

Lemma routings_app (t u : list Call) : routings (t ++ u) = routings t ++ routings u.
Proof. apply omap_app. Qed.

Lemma decisions_app (t u : list Call) : decisions (t ++ u) = decisions t ++ decisions u.
Proof. unfold decisions. rewrite routings_app. apply fmap_app. Qed.

Lemma flushes_app (t u : list Call) : flushes (t ++ u) = flushes t ++ flushes u.
Proof. apply omap_app. Qed.

Lemma handlerCalls_app (t u : list Call) :
  handlerCalls (t ++ u) = handlerCalls t ++ handlerCalls u.
Proof. apply omap_app. Qed.

Lemma lookups_silent (t : list Call) :
  forallb isLookup t = true ->
  routings t = [] /\ flushes t = [] /\ handlerCalls t = [].
Proof.
  induction t as [|e t IH]; cbn; [done|].
  intros [He Ht]%andb_prop. destruct (IH Ht) as (? & ? & ?).
  destruct e; try discriminate; cbn; done.
Qed.

(** ** The routing decision *)

#[global] Arguments routings : simpl never.
#[global] Arguments decisions : simpl never.
#[global] Arguments flushes : simpl never.
#[global] Arguments handlerCalls : simpl never.

Section Decision.

Context {ext : Externals} {T : Type} {mapperOf : ModelMapper T}.

Lemma routings_resolve (fh : FallbackHandler T) (modelName : string) :
  routings (resolve fh modelName).2 = [].
Proof. apply lookups_silent, resolve_lookups. Qed.

Lemma decisions_resolve (fh : FallbackHandler T) (modelName : string) :
  decisions (resolve fh modelName).2 = [].
Proof. unfold decisions. rewrite routings_resolve. reflexivity. Qed.

Lemma flushes_resolve (fh : FallbackHandler T) (modelName : string) :
  flushes (resolve fh modelName).2 = [].
Proof. apply lookups_silent, resolve_lookups. Qed.

Lemma handlerCalls_resolve (fh : FallbackHandler T) (modelName : string) :
  handlerCalls (resolve fh modelName).2 = [].
Proof. apply lookups_silent, resolve_lookups. Qed.

Lemma reattach_nonempty (modelName target : string) :
  target ≠ "" -> reattach modelName target ≠ "".
Proof.
  unfold reattach. intros N.
  case_bool_decide; [|assumption].
  destruct (negb _); [|assumption].
  destruct target; [done|discriminate].
Qed.

(** The resolver on a usable mapping, and on one that is not. *)
Lemma resolve_usable_mapping (fh : FallbackHandler T) (mapper : T) (modelName : string) :
  modelMapper fh = Some mapper ->
  strings.TrimSpace (mappingTarget mapper modelName) ≠ "" ->
  util_GetProviderName (normalize (candidate mapper modelName)) ≠ [] ->
  (resolve fh modelName).1
  = (candidate mapper modelName, util_GetProviderName (normalize (candidate mapper modelName)))
  /\ candidate mapper modelName ≠ "".
Proof.
  intros M U P. rewrite resolve_value, M. unfold answer.
  fold (candidate mapper modelName).
  rewrite bool_decide_eq_false_2 by assumption.
  destruct (util_GetProviderName (normalize (candidate mapper modelName))); [done|].
  split; [reflexivity|]. apply reattach_nonempty. assumption.
Qed.

(** The resolver returns nothing in three cases, and in no other: there is
    no mapper; the target is blank; the candidate has no provider. *)
Lemma resolver_returns_nothing (fh : FallbackHandler T) (modelName : string) :
  (resolve fh modelName).1.1 = ""
  <-> match modelMapper fh with
      | None => True
      | Some mapper =>
          strings.TrimSpace (mappingTarget mapper modelName) = ""
          \/ util_GetProviderName (normalize (candidate mapper modelName)) = []
      end.
Proof.
  rewrite resolve_value. destruct (modelMapper fh) as [mapper|]; [|done].
  unfold answer. fold (candidate mapper modelName).
  case_bool_decide as B; [tauto|].
  destruct (util_GetProviderName (normalize (candidate mapper modelName))); cbn; [tauto|].
  split.
  - intros E. apply reattach_nonempty in E; [done|assumption].
  - intros [?|?]; done.
Qed.

(** The candidate for a request with a suffix, from the trimmed target. *)
Lemma reattach_suffix (modelName base s target : string) :
  thinking.ParseSuffix modelName
  = {| thinking.ModelName := base; thinking.HasSuffix := true;
       thinking.RawSuffix := s |} ->
  reattach modelName target
  = if thinking.HasSuffix (thinking.ParseSuffix target) then target
    else target +:+ "(" +:+ s +:+ ")".
Proof.
  intros S. unfold reattach, thinkingSuffixOf. rewrite S. cbn.
  destruct (thinking.HasSuffix (thinking.ParseSuffix target)); reflexivity.
Qed.

(** The same for a name written [base(s)]. *)
Lemma reattach_written_suffix (base s target : string) :
  noOpen s = true ->
  reattach (base +:+ "(" +:+ s +:+ ")") target
  = if thinking.HasSuffix (thinking.ParseSuffix target) then target
    else target +:+ "(" +:+ s +:+ ")".
Proof. intros N. apply (reattach_suffix _ base). apply ParseSuffix_form, N. Qed.

(** A request without a suffix leaves the trimmed target as it is. *)
Lemma reattach_no_suffix (modelName target : string) :
  thinking.HasSuffix (thinking.ParseSuffix modelName) = false ->
  reattach modelName target = target.
Proof. intros S. unfold reattach, thinkingSuffixOf. rewrite S. reflexivity. Qed.

Lemma resolve_nothing (fh : FallbackHandler T) (modelName : string) :
  (resolve fh modelName).1.1 = "" -> (resolve fh modelName).1 = ("", []).
Proof.
  rewrite resolve_value. destruct (modelMapper fh); [|reflexivity].
  unfold answer. case_bool_decide; [reflexivity|].
  destruct (length _ =? 0)%nat; [reflexivity|]. cbn.
  intros E. apply reattach_nonempty in E; [done|assumption].
Qed.

End Decision.

(** The calls of a path, by kind. *)
Ltac trace :=
  unfold fallbackLookups;
  repeat match goal with
         | |- context [if forced ?fh then _ else _] => destruct (forced fh) eqn:?
         end;
  cbn [fst snd];
  rewrite ?after_made, ?thenFlush_made, ?call_made;
  rewrite ?routings_app, ?decisions_app, ?flushes_app, ?handlerCalls_app;
  rewrite ?routings_resolve, ?decisions_resolve, ?flushes_resolve, ?handlerCalls_resolve;
  repeat match goal with
         | |- context [match ?o with Returned _ => _ | Panicked => _ end] =>
             destruct o eqn:?
         end;
  unfold decisions, routings, flushes, handlerCalls; cbn.

(** The paths of a run; and the paths of a readable request for a model
    that is not empty. *)
Ltac every_path fh handler c :=
  destruct (WrapHandler_path fh handler c)
    as [err' B'|bodyBytes' B' E'|bodyBytes' modelName' p' ps' B' E' N' P' R'
       |bodyBytes' modelName' mm' mp' mps' B' E' N' R' M' P'
       |bodyBytes' modelName' proxy' B' E' N' P' R' G'
       |bodyBytes' modelName' B' E' N' P' R' G'].

Ltac paths fh handler c B E0 :=
  destruct (WrapHandler_path fh handler c)
    as [err' B'|bodyBytes' B' E'|bodyBytes' modelName' p' ps' B' E' N' P' R'
       |bodyBytes' modelName' mm' mp' mps' B' E' N' R' M' P'
       |bodyBytes' modelName' proxy' B' E' N' P' R' G'
       |bodyBytes' modelName' B' E' N' P' R' G'];
  rewrite B in B'; try discriminate; injection B' as <-;
  rewrite E0 in E'; try subst modelName'; try congruence.

Lemma restored_readable (c : Context) (bodyBytes : bytes) :
  Body (Request_ c) = NopCloser bodyBytes -> restored c bodyBytes = c.
Proof. destruct c as [[] ? ? ?]. cbn. intros ->. reflexivity. Qed.

Section Log.

Context {ext : Externals}.

(** The [resolved_model] field of the routing log is written for a resolved
    model that is set and is not the requested one. *)
Lemma logAmpRouting_resolved_field
    (routeType : AmpRouteType) (requestedModel resolvedModel provider path : string) :
  fields (logAmpRouting routeType requestedModel resolvedModel provider path)
    !! "resolved_model"
  = if bool_decide (resolvedModel ≠ "") && bool_decide (resolvedModel ≠ requestedModel)
    then Some resolvedModel else None.
Proof.
  unfold logAmpRouting.
  destruct routeType, (bool_decide (resolvedModel ≠ "")),
    (bool_decide (resolvedModel ≠ requestedModel)), (bool_decide (provider ≠ ""));
    cbn; by simplify_map_eq.
Qed.

End Log.

(** ** The claims *)

Section Claims.

Context {ext : Externals} {T : Type} {mapperOf : ModelMapper T}.

(** C1.  When the requested model has a configured local provider and also
    a usable mapping (the trimmed target is not empty and the candidate built
    from it has a provider), the one routing decision logged is ModelMapping
    if the force-priority flag reads true, and LocalProvider if it reads
    false. *)
Theorem force_priority_flips_precedence
    (fh : FallbackHandler T) (mapper : T) (handler : HandlerFunc) (c : Context)
    (bodyBytes : bytes) (modelName : string) :
  Body (Request_ c) = NopCloser bodyBytes ->
  extractModelFromRequest bodyBytes c = modelName ->
  modelName ≠ "" ->
  util_GetProviderName (normalize modelName) ≠ [] ->
  modelMapper fh = Some mapper ->
  strings.TrimSpace (mappingTarget mapper modelName) ≠ "" ->
  util_GetProviderName (normalize (candidate mapper modelName)) ≠ [] ->
  decisions (WrapHandler fh handler c).2
  = [if forced fh then RouteTypeModelMapping else RouteTypeLocalProvider].
Proof.
  intros B E N L M U P.
  destruct (resolve_usable_mapping fh mapper modelName M U P) as [V V'].
  paths fh handler c B E.
  - trace; try reflexivity.
    all: rewrite V in R'; specialize (R' eq_refl); done.
  - trace; try reflexivity.
    all: specialize (P' eq_refl); done.
Qed.

(** C2.  When the provider lookup gives no provider for the base name of
    the candidate model (the trimmed target with the suffix of the request
    reattached), the resolver returns nothing, and no request for that model
    is routed as ModelMapping. *)
Theorem unreachable_mapping_is_never_used
    (fh : FallbackHandler T) (mapper : T) (modelName : string) :
  modelMapper fh = Some mapper ->
  util_GetProviderName (normalize (candidate mapper modelName)) = [] ->
  (resolve fh modelName).1 = ("", [])
  /\ forall (handler : HandlerFunc) (c : Context) (bodyBytes : bytes),
       Body (Request_ c) = NopCloser bodyBytes ->
       extractModelFromRequest bodyBytes c = modelName ->
       ~ In RouteTypeModelMapping (decisions (WrapHandler fh handler c).2).
Proof.
  intros M P.
  assert (V : (resolve fh modelName).1 = ("", [])).
  { rewrite resolve_value, M. unfold answer. fold (candidate mapper modelName).
    rewrite P. case_bool_decide; reflexivity. }
  split; [assumption|].
  intros handler c bodyBytes B E.
  every_path fh handler c;
    try (rewrite B in B'; injection B' as <-; rewrite E in E'; subst modelName').
  all: try (rewrite V in R'; congruence).
  all: trace; cbn; intros HIn;
    repeat (destruct HIn as [HIn|HIn]; [discriminate HIn|]); exact HIn.
Qed.

(** C3.  With the force-priority flag reading true and the resolver
    returning nothing, the wrapper still looks up the providers of the
    normalized base name, after the resolver's own lookups; when there is a
    local provider the request is routed as LocalProvider and handed to the
    downstream handler, with no fallback. *)
Theorem forced_unusable_mapping_falls_through
    (fh : FallbackHandler T) (handler : HandlerFunc) (c : Context)
    (bodyBytes : bytes) (modelName p : string) (ps : list string) :
  Body (Request_ c) = NopCloser bodyBytes ->
  extractModelFromRequest bodyBytes c = modelName ->
  modelName ≠ "" ->
  forced fh = true ->
  (resolve fh modelName).1.1 = "" ->
  util_GetProviderName (normalize modelName) = p :: ps ->
  WrapHandler fh handler c
  = after ((resolve fh modelName).2
           ++ [CallGetProviderName (normalize modelName);
               CallLogAmpRouting RouteTypeLocalProvider modelName
                 (normalize modelName) p (URL_Path (Request_ c))])
      (call handler (served c bodyBytes))
  /\ decisions (WrapHandler fh handler c).2 = [RouteTypeLocalProvider].
Proof.
  intros B E N F R P.
  paths fh handler c B E.
  - rewrite P in P'. injection P' as <- <-. rewrite F. split; [reflexivity|].
    trace. reflexivity.
  - rewrite R' in R. done.
Qed.

(** C9.  A request whose model has no local provider and no usable mapping,
    with no proxy configured, is logged as NoProvider and handed to the
    downstream handler in the context it came in: the body, the headers, the
    keys and the writer are those of the request, and the wrapper makes no
    other call than its lookups. *)
Theorem no_provider_passes_body_through
    (fh : FallbackHandler T) (handler : HandlerFunc) (c : Context)
    (bodyBytes : bytes) (modelName : string) :
  Body (Request_ c) = NopCloser bodyBytes ->
  extractModelFromRequest bodyBytes c = modelName ->
  modelName ≠ "" ->
  util_GetProviderName (normalize modelName) = [] ->
  (resolve fh modelName).1.1 = "" ->
  getProxy fh tt = None ->
  WrapHandler fh handler c
  = after (fallbackLookups fh modelName
           ++ [CallLogAmpRouting RouteTypeNoProvider modelName "" ""
                 (URL_Path (Request_ c))])
      (call handler c)
  /\ decisions (WrapHandler fh handler c).2 = [RouteTypeNoProvider]
  /\ handlerCalls (WrapHandler fh handler c).2 = [c].
Proof.
  intros B E N P R G.
  paths fh handler c B E.
  - rewrite R' in R. done.
  - rewrite (restored_readable c bodyBytes B).
    split; [reflexivity|]. split; trace; reflexivity.
Qed.

(** C4.  On a request routed as ModelMapping the wrapper logs the model the
    resolver returned, stores it under the context key, and hands the
    downstream handler the body rewritten for that model: the document
    [sjson.SetBytes] returns for the [model] field when the body has that
    field, and the body as it is when it has none. *)
Theorem mapped_route_rewrites_body
    (fh : FallbackHandler T) (handler : HandlerFunc) (c : Context)
    (bodyBytes : bytes) (modelName : string) :
  Body (Request_ c) = NopCloser bodyBytes ->
  extractModelFromRequest bodyBytes c = modelName ->
  decisions (WrapHandler fh handler c).2 = [RouteTypeModelMapping] ->
  let mappedModel := (resolve fh modelName).1.1 in
  let body' := rewriteModelInRequest bodyBytes mappedModel in
  mappedModel ≠ ""
  /\ (exists mp,
        routings (WrapHandler fh handler c).2
        = [{| routeType := RouteTypeModelMapping; requestedModel := modelName;
              resolvedModel := mappedModel; provider := mp;
              path := URL_Path (Request_ c) |}])
  /\ handlerCalls (WrapHandler fh handler c).2 = [mapped c body' mappedModel modelName]
  /\ Body (Request_ (mapped c body' mappedModel modelName)) = NopCloser body'
  /\ Keys (mapped c body' mappedModel modelName) !! MappedModelContextKey = Some mappedModel
  /\ (gjson.Exists (gjson_GetBytes bodyBytes "model") = true ->
      forall result, sjson_SetBytes bodyBytes "model" mappedModel = inl result ->
                     body' = result)
  /\ (gjson.Exists (gjson_GetBytes bodyBytes "model") = false -> body' = bodyBytes).
Proof.
  intros B E D mappedModel body'. subst mappedModel body'.
  revert D.
  every_path fh handler c;
    try (rewrite B in B'; injection B' as <-; rewrite E in E'; subst modelName').
  all: try (trace; discriminate).
  intros _. rewrite R'. cbn [fst snd].
  split; [assumption|]. split; [exists mp'; trace; reflexivity|].
  split; [trace; reflexivity|]. split; [reflexivity|].
  split; [apply lookup_insert_eq|].
  unfold rewriteModelInRequest. split.
  - intros -> result ->. reflexivity.
  - intros ->. reflexivity.
Qed.

(** C5, as amended.  Every routed request logs one routing, for the model
    it asked for.  Its resolved model is the normalized base name of that
    model on a LocalProvider route, which is the requested model exactly
    when the request carries no suffix; the non-empty model the resolver
    returned on a ModelMapping route; and none on the two fallback routes. *)
Theorem resolved_model_by_route
    (fh : FallbackHandler T) (handler : HandlerFunc) (c : Context)
    (bodyBytes : bytes) (modelName : string) :
  Body (Request_ c) = NopCloser bodyBytes ->
  extractModelFromRequest bodyBytes c = modelName ->
  modelName ≠ "" ->
  exists r, routings (WrapHandler fh handler c).2 = [r]
    /\ requestedModel r = modelName
    /\ match routeType r with
       | RouteTypeLocalProvider =>
           resolvedModel r = normalize modelName
           /\ (resolvedModel r = modelName
               <-> thinking.HasSuffix (thinking.ParseSuffix modelName) = false)
       | RouteTypeModelMapping =>
           resolvedModel r = (resolve fh modelName).1.1 /\ resolvedModel r ≠ ""
       | RouteTypeAmpCredits | RouteTypeNoProvider => resolvedModel r = ""
       end.
Proof.
  intros B E N.
  paths fh handler c B E.
  all: eexists; split; [trace; reflexivity|]; cbn; split; [reflexivity|].
  all: try reflexivity.
  - split; [reflexivity|]. apply normalize_fixed.
  - rewrite R'. done.
Qed.

(** C6, as amended.  On a request routed as ModelMapping the wrapper ends as
    the downstream handler ends.  When the handler returns, the wrapper
    flushes the response rewriter once, as its last call, right after the
    call of the handler; when the handler panics, the wrapper makes no call
    after it and the rewriter is not flushed. *)
Theorem flushed_once_after_return
    (fh : FallbackHandler T) (handler : HandlerFunc) (c : Context)
    (bodyBytes : bytes) (modelName : string) :
  Body (Request_ c) = NopCloser bodyBytes ->
  extractModelFromRequest bodyBytes c = modelName ->
  decisions (WrapHandler fh handler c).2 = [RouteTypeModelMapping] ->
  let mappedModel := (resolve fh modelName).1.1 in
  let ctx := mapped c (rewriteModelInRequest bodyBytes mappedModel) mappedModel modelName in
  let rewriter := NewResponseRewriter (Writer c) modelName in
  Writer ctx = rewriter
  /\ match (handler ctx).1.1 with
     | Returned _ =>
         (WrapHandler fh handler c).1.1 = Returned tt
         /\ flushes (WrapHandler fh handler c).2 = [rewriter]
         /\ exists pre, (WrapHandler fh handler c).2
                        = pre ++ [CallHandler ctx (handler ctx).2; CallFlush rewriter]
     | Panicked =>
         (WrapHandler fh handler c).1.1 = Panicked
         /\ flushes (WrapHandler fh handler c).2 = []
         /\ exists pre, (WrapHandler fh handler c).2
                        = pre ++ [CallHandler ctx (handler ctx).2]
     end.
Proof.
  intros B E D mappedModel ctx rewriter. subst mappedModel ctx rewriter.
  revert D.
  every_path fh handler c;
    try (rewrite B in B'; injection B' as <-; rewrite E in E'; subst modelName').
  all: try (trace; discriminate).
  intros _. rewrite R'. cbn [fst snd]. split; [reflexivity|].
  set (ctx := mapped c (rewriteModelInRequest bodyBytes mm') mm' modelName).
  unfold after, thenFlush. rewrite call_outcome, call_made. cbn [fst snd].
  destruct (handler ctx).1.1 eqn:O; cbn [fst snd].
  - split; [reflexivity|]. split.
    + rewrite !flushes_app, flushes_resolve.
      destruct (forced fh); reflexivity.
    + eexists. rewrite !app_assoc. rewrite <- app_assoc. reflexivity.
  - rewrite call_outcome, call_made, O. split; [reflexivity|]. split.
    + rewrite !flushes_app, flushes_resolve.
      destruct (forced fh); reflexivity.
    + eexists. rewrite !app_assoc. reflexivity.
Qed.

(** C7, as amended.  For a requested model that the normalizer splits into
    a base name and a suffix [s], and a mapping target that is not blank, the
    candidate model is the target with its surrounding white space trimmed,
    followed by ["(" + s + ")"] when the trimmed target has no suffix of its
    own, and the trimmed target itself when it has one; the resolver returns
    that candidate with its providers, or nothing when it has none. *)
Theorem suffix_reattached_to_trimmed_target
    (fh : FallbackHandler T) (mapper : T) (modelName base s : string) :
  modelMapper fh = Some mapper ->
  thinking.ParseSuffix modelName
  = {| thinking.ModelName := base; thinking.HasSuffix := true;
       thinking.RawSuffix := s |} ->
  let target := strings.TrimSpace (mappingTarget mapper modelName) in
  target ≠ "" ->
  let model :=
    if thinking.HasSuffix (thinking.ParseSuffix target) then target
    else target +:+ "(" +:+ s +:+ ")" in
  candidate mapper modelName = model
  /\ (resolve fh modelName).1
     = if (length (util_GetProviderName (normalize model)) =? 0)%nat then ("", [])
       else (model, util_GetProviderName (normalize model)).
Proof.
  intros M S target N model.
  assert (C : candidate mapper modelName = model)
    by apply (reattach_suffix modelName base s target S).
  split; [assumption|].
  rewrite resolve_value, M. unfold answer. fold target.
  rewrite bool_decide_eq_false_2 by assumption.
  change (reattach modelName target) with (candidate mapper modelName).
  rewrite C. reflexivity.
Qed.

(** C8, as amended.  When the body has a [model] field of string type, the
    extractor returns the string of that field, whatever the [action] and
    [path] parameters of the route say. *)
Theorem json_string_model_field_wins (body : bytes) (c : Context) :
  gjson.Exists (gjson_GetBytes body "model") = true ->
  gjson.Type' (gjson_GetBytes body "model") = gjson.String_ ->
  extractModelFromRequest body c = gjson.String (gjson_GetBytes body "model").
Proof.
  intros X S. unfold extractModelFromRequest.
  rewrite X, (bool_decide_eq_true_2 _ S). reflexivity.
Qed.

(** C10.  When the mapper gives, for the name as typed, a target that is
    not empty but white space only, the resolver asks the mapper once, for
    that name, and returns nothing, whatever the mapper holds for the base
    name.  When the mapper gives the empty string for the name as typed, the
    resolver asks it next for the base name and answers from that target. *)
Theorem whitespace_mapping_masks_base_mapping
    (fh fh' : FallbackHandler T) (mapper mapper' : T) (modelName : string) :
  modelMapper fh = Some mapper ->
  modelMapper fh' = Some mapper' ->
  MapModel mapper modelName ≠ "" ->
  allSpace (MapModel mapper modelName) = true ->
  MapModel mapper' modelName = "" ->
  resolve fh modelName = ("", [], [CallMapModel modelName])
  /\ (resolve fh' modelName).1
     = answer modelName (MapModel mapper' (normalize modelName))
  /\ exists rest,
       (resolve fh' modelName).2
       = CallMapModel modelName :: CallMapModel (normalize modelName) :: rest.
Proof.
  intros M M' N W E.
  pose proof (resolve_value fh modelName) as V.
  pose proof (resolve_calls fh modelName) as L.
  pose proof (resolve_value fh' modelName) as V'.
  pose proof (resolve_calls fh' modelName) as L'.
  rewrite M in V, L. rewrite M' in V', L'.
  unfold mappingTarget in V, L, V', L'.
  rewrite (bool_decide_eq_false_2 _ N) in V, L.
  rewrite E in V', L'. cbn in V', L'.
  unfold answer in V. rewrite (TrimSpace_allSpace _ W) in V, L. cbn in V, L.
  split; [|split].
  - destruct (resolve fh modelName) as [v t]. cbn in V, L. subst. reflexivity.
  - assumption.
  - rewrite L'. eexists. reflexivity.
Qed.

End Claims.

(** ** The scenarios of the specification, run *)

Import Scenario.

(** [{"model":"gpt-5(xhigh)"}] with no local provider for [gpt-5], a mapping
    of [gpt-5] to [local-model-a] served by one provider, and the flag off. *)
Example scenario_mapping :
  run mappedOnly (Demo.fallback Demo.noProxy toLocalA false) Demo.returns (chat "gpt-5(xhigh)")
  = (Returned tt,
     mapped (ext := Demo.externals mappedOnly) (chat "gpt-5(xhigh)")
       (Demo.modelBody "local-model-a(xhigh)") "local-model-a(xhigh)" "gpt-5(xhigh)",
     [CallGetProviderName "gpt-5"; CallMapModel "gpt-5(xhigh)"; CallMapModel "gpt-5";
      CallGetProviderName "local-model-a";
      CallLogAmpRouting RouteTypeModelMapping "gpt-5(xhigh)" "local-model-a(xhigh)"
        "claude" "/v1/chat/completions";
      CallHandler
        (mapped (ext := Demo.externals mappedOnly) (chat "gpt-5(xhigh)")
           (Demo.modelBody "local-model-a(xhigh)") "local-model-a(xhigh)" "gpt-5(xhigh)") [];
      CallFlush (NewResponseRewriter ClientWriter "gpt-5(xhigh)")]).
Proof. vm_compute. reflexivity. Qed.

(** [{"model":"claude-x"}] with no provider, no mapping and no proxy. *)
Example scenario_no_provider :
  run [] (Demo.fallback Demo.noProxy [] false) Demo.returns (chat "claude-x")
  = (Returned tt, chat "claude-x",
     [CallGetProviderName "claude-x"; CallMapModel "claude-x"; CallMapModel "claude-x";
      CallLogAmpRouting RouteTypeNoProvider "claude-x" "" "" "/v1/chat/completions";
      CallHandler (chat "claude-x") []]).
Proof. vm_compute. reflexivity. Qed.

(** The normalizer, the extractor and the header filter on the examples of
    the specification. *)
Example normalize_suffix :
  thinking.ParseSuffix "gpt-5(xhigh)"
  = {| thinking.ModelName := "gpt-5"; thinking.HasSuffix := true;
       thinking.RawSuffix := "xhigh" |}.
Proof. reflexivity. Qed.

Example normalize_plain :
  thinking.ParseSuffix "claude-x"
  = {| thinking.ModelName := "claude-x"; thinking.HasSuffix := false;
       thinking.RawSuffix := "" |}.
Proof. reflexivity. Qed.

Example extract_from_action :
  extractModelFromRequest (ext := Demo.externals []) "{}" (gemini "{}") = "gemini-pro".
Proof. vm_compute. reflexivity. Qed.

Example extract_from_path :
  extractModelFromRequest (ext := Demo.externals []) "{}"
    (Demo.request "/api/provider/google/v1beta1/publishers/google/models/gemini-3-pro-preview:streamGenerateContent"
       [("path", "/publishers/google/models/gemini-3-pro-preview:streamGenerateContent")]
       "{}")
  = "gemini-3-pro-preview".
Proof. vm_compute. reflexivity. Qed.

Example filter_beta_header :
  Demo.filterBeta "tools-2024,context-1m-2025-08-07,vision" "context-1m-2025-08-07"
  = "tools-2024,vision"
  /\ Demo.filterBeta "context-1m-2025-08-07" "context-1m-2025-08-07" = "".
Proof. split; reflexivity. Qed.

(** Go's white space: the no-break space and the ideographic space are
    trimmed as the space is; a byte 0xA0 that is no rune is kept; white space
    inside the text is kept. *)
Example trim_space_unicode :
  strings.TrimSpace (ideographic +:+ " local-model-a" +:+ nbsp +:+ " ") = "local-model-a"
  /\ strings.TrimSpace (" a" +:+ nbsp +:+ "b ") = "a" +:+ nbsp +:+ "b"
  /\ strings.TrimSpace ("a" +:+ String "160" "") = "a" +:+ String "160" ""
  /\ strings.TrimSpace (nbsp +:+ ideographic) = ""
  /\ allSpace (nbsp +:+ " " +:+ ideographic) = true
  /\ allSpace (String "160" "") = false.
Proof. vm_compute. repeat split; reflexivity. Qed.

(** A target padded with white space on several bytes is a usable mapping:
    the request is routed to the model the trimmed target names. *)
Example scenario_wide_padding :
  (resolved mappedOnly (Demo.fallback Demo.noProxy paddedWide false) "gpt-5(xhigh)").1
  = ("local-model-a(xhigh)", ["claude"])
  /\ decisions (run mappedOnly (Demo.fallback Demo.noProxy paddedWide false) Demo.returns
                  (chat "gpt-5(xhigh)")).2
     = [RouteTypeModelMapping]
  /\ registryCalls (resolved mappedOnly (Demo.fallback Demo.noProxy paddedWide false)
                      "gpt-5(xhigh)").2
     = ["local-model-a"].
Proof. vm_compute. repeat split; reflexivity. Qed.

(** The log of a local route for [gpt-5(xhigh)] carries the resolved model. *)
Example local_route_log :
  fields (logAmpRouting (ext := Demo.externals localOnly) RouteTypeLocalProvider
            "gpt-5(xhigh)" "gpt-5" "codex" "/v1/chat/completions")
    !! "resolved_model"
  = Some "gpt-5".
Proof. rewrite logAmpRouting_resolved_field. reflexivity. Qed.

(** ** Witnesses and counterexamples *)

Lemma force_priority_flips_precedence_witness :
  decisions (run both (Demo.fallback Demo.noProxy toLocalA true) Demo.returns
               (chat "gpt-5(xhigh)")).2
  = [RouteTypeModelMapping]
  /\ decisions (run both (Demo.fallback Demo.noProxy toLocalA false) Demo.returns
                  (chat "gpt-5(xhigh)")).2
     = [RouteTypeLocalProvider].
Proof.
  split.
  - apply (force_priority_flips_precedence (ext := Demo.externals both)
             (Demo.fallback Demo.noProxy toLocalA true) toLocalA Demo.returns
             (chat "gpt-5(xhigh)") (Demo.modelBody "gpt-5(xhigh)") "gpt-5(xhigh)");
      by vm_compute.
  - apply (force_priority_flips_precedence (ext := Demo.externals both)
             (Demo.fallback Demo.noProxy toLocalA false) toLocalA Demo.returns
             (chat "gpt-5(xhigh)") (Demo.modelBody "gpt-5(xhigh)") "gpt-5(xhigh)");
      by vm_compute.
Defined.

Lemma unreachable_mapping_is_never_used_witness :
  (resolved [] (Demo.fallback Demo.noProxy toLocalA true) "gpt-5(xhigh)").1 = ("", [])
  /\ ~ In RouteTypeModelMapping
       (decisions (run [] (Demo.fallback Demo.noProxy toLocalA true) Demo.returns
                     (chat "gpt-5(xhigh)")).2).
Proof.
  destruct (unreachable_mapping_is_never_used (ext := Demo.externals [])
              (Demo.fallback Demo.noProxy toLocalA true) toLocalA "gpt-5(xhigh)")
    as [R W]; [reflexivity|reflexivity|].
  split; [exact R|].
  apply (W Demo.returns (chat "gpt-5(xhigh)") (Demo.modelBody "gpt-5(xhigh)"));
    reflexivity.
Defined.

Lemma forced_unusable_mapping_falls_through_witness :
  decisions (run localOnly (Demo.fallback Demo.ampcode toLocalA true) Demo.returns
               (chat "gpt-5(xhigh)")).2
  = [RouteTypeLocalProvider].
Proof.
  apply (forced_unusable_mapping_falls_through (ext := Demo.externals localOnly)
           (Demo.fallback Demo.ampcode toLocalA true) Demo.returns
           (chat "gpt-5(xhigh)") (Demo.modelBody "gpt-5(xhigh)") "gpt-5(xhigh)"
           "codex" []); by vm_compute.
Defined.

Lemma no_provider_passes_body_through_witness :
  handlerCalls (run [] (Demo.fallback Demo.noProxy [] false) Demo.returns
                  (chat "claude-x")).2
  = [chat "claude-x"].
Proof.
  apply (no_provider_passes_body_through (ext := Demo.externals [])
           (Demo.fallback Demo.noProxy [] false) Demo.returns
           (chat "claude-x") (Demo.modelBody "claude-x") "claude-x"); by vm_compute.
Defined.

Lemma mapped_route_rewrites_body_witness :
  handlerCalls (run mappedOnly (Demo.fallback Demo.noProxy toLocalA false) Demo.returns
                  (chat "gpt-5(xhigh)")).2
  = [mapped (ext := Demo.externals mappedOnly) (chat "gpt-5(xhigh)")
       (Demo.modelBody "local-model-a(xhigh)") "local-model-a(xhigh)" "gpt-5(xhigh)"]
  /\ gjson.String (MiniJson.GetBytes (Demo.modelBody "local-model-a(xhigh)") "model")
     = "local-model-a(xhigh)".
Proof.
  destruct (mapped_route_rewrites_body (ext := Demo.externals mappedOnly)
              (Demo.fallback Demo.noProxy toLocalA false) Demo.returns
              (chat "gpt-5(xhigh)") (Demo.modelBody "gpt-5(xhigh)") "gpt-5(xhigh)")
    as (_ & _ & Hc & _); [reflexivity|reflexivity|reflexivity|].
  split; [exact Hc|reflexivity].
Defined.

Lemma resolved_model_by_route_witness :
  exists r,
    routings (run localOnly (Demo.fallback Demo.noProxy [] false) Demo.returns
                (chat "gpt-5(xhigh)")).2 = [r]
    /\ routeType r = RouteTypeLocalProvider
    /\ requestedModel r = "gpt-5(xhigh)"
    /\ resolvedModel r = "gpt-5".
Proof.
  destruct (resolved_model_by_route (ext := Demo.externals localOnly)
              (Demo.fallback Demo.noProxy [] false) Demo.returns
              (chat "gpt-5(xhigh)") (Demo.modelBody "gpt-5(xhigh)") "gpt-5(xhigh)")
    as (r & Hr & Hq & Hm); [reflexivity|reflexivity|discriminate|].
  exists r. split; [exact Hr|].
  injection Hr as <-. split; [reflexivity|]. split; [reflexivity|reflexivity].
Defined.

Lemma flushed_once_after_return_witness :
  flushes (run mappedOnly (Demo.fallback Demo.noProxy toLocalA false) Demo.returns
             (chat "gpt-5(xhigh)")).2
  = [NewResponseRewriter ClientWriter "gpt-5(xhigh)"].
Proof.
  destruct (flushed_once_after_return (ext := Demo.externals mappedOnly)
              (Demo.fallback Demo.noProxy toLocalA false) Demo.returns
              (chat "gpt-5(xhigh)") (Demo.modelBody "gpt-5(xhigh)") "gpt-5(xhigh)")
    as (_ & _ & Hf & _); [reflexivity|reflexivity|reflexivity|].
  exact Hf.
Defined.

Lemma suffix_reattached_to_trimmed_target_witness :
  (resolved mappedOnly (Demo.fallback Demo.noProxy padded false) "gpt-5(xhigh)").1
  = ("local-model-a(xhigh)", ["claude"]).
Proof.
  destruct (suffix_reattached_to_trimmed_target (ext := Demo.externals mappedOnly)
              (Demo.fallback Demo.noProxy padded false) padded
              "gpt-5(xhigh)" "gpt-5" "xhigh")
    as [_ Hr]; [reflexivity|reflexivity|discriminate|].
  exact Hr.
Defined.

Lemma json_string_model_field_wins_witness :
  extractModelFromRequest (ext := Demo.externals []) (Demo.modelBody "gpt-5")
    (gemini (Demo.modelBody "gpt-5"))
  = "gpt-5".
Proof.
  apply (json_string_model_field_wins (ext := Demo.externals [])
           (Demo.modelBody "gpt-5") (gemini (Demo.modelBody "gpt-5")));
    reflexivity.
Defined.

Lemma whitespace_mapping_masks_base_mapping_witness :
  resolved mappedOnly (Demo.fallback Demo.noProxy blankRaw false) "gpt-5(xhigh)"
  = ("", [], [CallMapModel "gpt-5(xhigh)"])
  /\ (resolved mappedOnly (Demo.fallback Demo.noProxy toLocalA false) "gpt-5(xhigh)").1
     = ("local-model-a(xhigh)", ["claude"]).
Proof.
  destruct (whitespace_mapping_masks_base_mapping (ext := Demo.externals mappedOnly)
              (Demo.fallback Demo.noProxy blankRaw false)
              (Demo.fallback Demo.noProxy toLocalA false)
              blankRaw toLocalA "gpt-5(xhigh)")
    as (Hw & He & _); [reflexivity|reflexivity|discriminate|reflexivity|reflexivity|].
  split; [exact Hw|exact He].
Defined.

(** C5, as stated, fails: a request for [gpt-5(xhigh)] served by a local
    provider of [gpt-5] is logged with the resolved model [gpt-5], which is
    set and is not the requested model, on a LocalProvider decision. *)
Lemma local_route_resolves_to_base_name :
  ~ resolvedDiffersIffMapping
      (run localOnly (Demo.fallback Demo.noProxy [] false) Demo.returns
         (chat "gpt-5(xhigh)")).2.
Proof.
  unfold resolvedDiffersIffMapping.
  replace (routings _) with
    [{| routeType := RouteTypeLocalProvider; requestedModel := "gpt-5(xhigh)";
        resolvedModel := "gpt-5"; provider := "codex";
        path := "/v1/chat/completions" |}] by (vm_compute; reflexivity).
  intros F. apply Forall_cons_1 in F as [[F _] _]. cbn in F.
  discriminate F. split; discriminate.
Qed.

(** C6, as stated, fails: on a ModelMapping route whose downstream handler
    panics, the wrapper panics as well and has not flushed the rewriter. *)
Lemma panic_skips_flush :
  decisions panicking.2 = [RouteTypeModelMapping]
  /\ panicking.1.1 = Panicked
  /\ length (flushes panicking.2) ≠ 1%nat.
Proof. vm_compute. split; [reflexivity|]. split; [reflexivity|discriminate]. Qed.

(** C7, as stated, fails: the target [ local-model-a ], padded with a space
    on each side, has no suffix of its own, and the candidate for
    [gpt-5(xhigh)] is [local-model-a(xhigh)], not the target followed by
    [(xhigh)]. *)
Lemma padded_target_is_trimmed :
  thinking.ParseSuffix "gpt-5(xhigh)"
  = {| thinking.ModelName := "gpt-5"; thinking.HasSuffix := true;
       thinking.RawSuffix := "xhigh" |}
  /\ mappingTarget padded "gpt-5(xhigh)" = " local-model-a "
  /\ thinking.HasSuffix (thinking.ParseSuffix (mappingTarget padded "gpt-5(xhigh)")) = false
  /\ (resolved mappedOnly (Demo.fallback Demo.noProxy padded false) "gpt-5(xhigh)").1.1
     = "local-model-a(xhigh)"
  /\ (resolved mappedOnly (Demo.fallback Demo.noProxy padded false) "gpt-5(xhigh)").1.1
     ≠ mappingTarget padded "gpt-5(xhigh)" +:+ "(" +:+ "xhigh" +:+ ")".
Proof. vm_compute. repeat (split; [reflexivity|]). discriminate. Qed.

(** C8, as stated, fails: the body [{"model":12}] has a [model] field, of
    number type, and on a route whose [action] names [gemini-pro] the
    extractor returns the model of the route, not the value of the field. *)
Lemma numeric_model_field_loses :
  gjson.Exists numericField = true
  /\ gjson.String numericField = "12"
  /\ extractModelFromRequest (ext := Demo.externals []) numericModel (gemini numericModel)
     = "gemini-pro"
  /\ extractModelFromRequest (ext := Demo.externals []) numericModel (gemini numericModel)
     ≠ gjson.String numericField.
Proof. vm_compute. repeat (split; [reflexivity|]). discriminate. Qed.

(** * Further properties of the wrapper *)

#[global] Arguments proxyCalls : simpl never.
#[global] Arguments downstream : simpl never.
#[global] Arguments mapperCalls : simpl never.
#[global] Arguments registryCalls : simpl never.

Lemma proxyCalls_app (t u : list Call) : proxyCalls (t ++ u) = proxyCalls t ++ proxyCalls u.
Proof. apply omap_app. Qed.

Lemma downstream_app (t u : list Call) : downstream (t ++ u) = downstream t ++ downstream u.
Proof. apply omap_app. Qed.

Lemma mapperCalls_app (t u : list Call) :
  mapperCalls (t ++ u) = mapperCalls t ++ mapperCalls u.
Proof. apply omap_app. Qed.

Lemma registryCalls_app (t u : list Call) :
  registryCalls (t ++ u) = registryCalls t ++ registryCalls u.
Proof. apply omap_app. Qed.

Lemma lookups_not_downstream (t : list Call) :
  forallb isLookup t = true -> proxyCalls t = [] /\ downstream t = [].
Proof.
  induction t as [|e t IH]; cbn; [done|].
  intros [He Ht]%andb_prop. destruct (IH Ht) as (? & ?).
  destruct e; try discriminate; cbn; done.
Qed.

Section Wrapper.

Context {ext : Externals} {T : Type} {mapperOf : ModelMapper T}.

Lemma proxyCalls_resolve (fh : FallbackHandler T) (modelName : string) :
  proxyCalls (resolve fh modelName).2 = [].
Proof. apply lookups_not_downstream, resolve_lookups. Qed.

Lemma downstream_resolve (fh : FallbackHandler T) (modelName : string) :
  downstream (resolve fh modelName).2 = [].
Proof. apply lookups_not_downstream, resolve_lookups. Qed.

End Wrapper.

(** The calls of a path, by kind, with the kinds above. *)
Ltac trace' :=
  unfold fallbackLookups;
  repeat match goal with
         | |- context [if forced ?fh then _ else _] => destruct (forced fh) eqn:?
         end;
  cbn [fst snd];
  rewrite ?after_made, ?thenFlush_made, ?call_made;
  rewrite ?routings_app, ?decisions_app, ?flushes_app, ?handlerCalls_app,
    ?proxyCalls_app, ?downstream_app;
  rewrite ?routings_resolve, ?decisions_resolve, ?flushes_resolve, ?handlerCalls_resolve,
    ?proxyCalls_resolve, ?downstream_resolve;
  repeat match goal with
         | |- context [match ?o with Returned _ => _ | Panicked => _ end] =>
             destruct o eqn:?
         end;
  unfold decisions, routings, flushes, handlerCalls, proxyCalls, downstream; cbn.

Section WrapperProperties.

Context {ext : Externals} {T : Type} {mapperOf : ModelMapper T}.

(** X1.  A request whose body cannot be read is handed to the downstream
    handler as it is: the wrapper asks no mapper and no registry, logs no
    routing, and ends as the handler ends. *)
Theorem unreadable_body_passes_through
    (fh : FallbackHandler T) (handler : HandlerFunc) (c : Context) (err : string) :
  Body (Request_ c) = BrokenReader err ->
  WrapHandler fh handler c = call handler c.
Proof.
  intros B. every_path fh handler c; congruence.
Qed.

(** X2.  A readable request from which no model can be extracted is handed
    to the downstream handler with its body restored, that is in the context
    it came in; nothing is looked up and no routing is logged. *)
Theorem no_model_passes_through
    (fh : FallbackHandler T) (handler : HandlerFunc) (c : Context) (bodyBytes : bytes) :
  Body (Request_ c) = NopCloser bodyBytes ->
  extractModelFromRequest bodyBytes c = "" ->
  WrapHandler fh handler c = call handler c.
Proof.
  intros B E.
  every_path fh handler c; try congruence;
    rewrite B in B'; injection B' as <-; try congruence.
  rewrite (restored_readable c bodyBytes B). reflexivity.
Qed.

(** X3.  With no local provider, no usable mapping and a proxy configured,
    the request is forwarded to the proxy with the body bytes restored and the
    writer of the request; the context is the one that came in (the beta
    header is not filtered, no key is set), the downstream handler is not
    called, and the wrapper ends as the call of the proxy ends: it returns
    when the proxy returns, and panics when the proxy aborts. *)
Theorem fallback_forwards_request_untouched
    (fh : FallbackHandler T) (handler : HandlerFunc) (c : Context)
    (bodyBytes : bytes) (modelName : string) (proxy : ReverseProxy) :
  Body (Request_ c) = NopCloser bodyBytes ->
  extractModelFromRequest bodyBytes c = modelName ->
  modelName ≠ "" ->
  util_GetProviderName (normalize modelName) = [] ->
  (resolve fh modelName).1.1 = "" ->
  getProxy fh tt = Some proxy ->
  WrapHandler fh handler c
  = (roundTrip proxy (Writer c) (Request_ c), c,
     fallbackLookups fh modelName
     ++ [CallLogAmpRouting RouteTypeAmpCredits modelName "" "" (URL_Path (Request_ c));
         CallServeHTTP proxy (Writer c) (Request_ c)])
  /\ handlerCalls (WrapHandler fh handler c).2 = [].
Proof.
  intros B E N P R G.
  paths fh handler c B E.
  - rewrite R' in R. done.
  - rewrite G in G'. injection G' as <-.
    rewrite (restored_readable c bodyBytes B).
    split; [reflexivity|]. trace; reflexivity.
Qed.

(** X4.  Every run of the wrapper passes the request on exactly once, to the
    downstream handler or to the proxy, and logs at most one routing. *)
Theorem exactly_one_downstream_call
    (fh : FallbackHandler T) (handler : HandlerFunc) (c : Context) :
  (length (handlerCalls (WrapHandler fh handler c).2)
   + length (proxyCalls (WrapHandler fh handler c).2) = 1)%nat
  /\ (length (decisions (WrapHandler fh handler c).2) <= 1)%nat.
Proof.
  every_path fh handler c; trace'; split; auto.
Qed.

(** X5.  The wrapper ends as the one call by which it passes the request on
    ends, the call of the downstream handler or that of the proxy: it
    recovers from no panic, and does not panic when that call returns. *)
Theorem wrapper_ends_as_downstream_call
    (fh : FallbackHandler T) (handler : HandlerFunc) (c : Context) :
  (WrapHandler fh handler c).1.1
  = match handlerCalls (WrapHandler fh handler c).2,
          proxyCalls (WrapHandler fh handler c).2 with
    | ctx :: _, _ => (handler ctx).1.1
    | [], (proxy, w, r) :: _ => roundTrip proxy w r
    | [], [] => Returned tt
    end.
Proof.
  every_path fh handler c; unfold after, thenFlush; cbn [fst snd];
    rewrite ?call_outcome, ?call_made.
  all: try (destruct (handler _).1.1 as [[]|] eqn:O; cbn [fst snd];
            rewrite ?call_outcome, ?call_made, ?O);
    trace'; rewrite ?O; try reflexivity.
Qed.

(** X6.  In default mode (the flag is absent or reads false), a request
    whose model has a local provider is served without the mapper: the only
    lookup is the one of the registry, for the normalized base name. *)
Theorem local_provider_skips_mapper
    (fh : FallbackHandler T) (handler : HandlerFunc) (c : Context)
    (bodyBytes : bytes) (modelName p : string) (ps : list string) :
  Body (Request_ c) = NopCloser bodyBytes ->
  extractModelFromRequest bodyBytes c = modelName ->
  modelName ≠ "" ->
  forced fh = false ->
  util_GetProviderName (normalize modelName) = p :: ps ->
  WrapHandler fh handler c
  = after [CallGetProviderName (normalize modelName);
           CallLogAmpRouting RouteTypeLocalProvider modelName (normalize modelName) p
             (URL_Path (Request_ c))]
      (call handler (served c bodyBytes)).
Proof.
  intros B E N F P.
  paths fh handler c B E.
  - rewrite P in P'. injection P' as <- <-. rewrite F. reflexivity.
  - specialize (P' F). congruence.
Qed.

(** X7.  On every routed request the request passed on keeps its URL path,
    and its headers are those that came in with the beta header sanitized
    when the route is LocalProvider or ModelMapping, and those that came in,
    untouched, when the request goes to the proxy or is left without
    provider. *)
Theorem beta_header_sanitized_on_local_routes_only
    (fh : FallbackHandler T) (handler : HandlerFunc) (c : Context)
    (bodyBytes : bytes) (modelName : string) :
  Body (Request_ c) = NopCloser bodyBytes ->
  extractModelFromRequest bodyBytes c = modelName ->
  modelName ≠ "" ->
  exists routeType req,
    decisions (WrapHandler fh handler c).2 = [routeType]
    /\ downstream (WrapHandler fh handler c).2 = [req]
    /\ URL_Path req = URL_Path (Request_ c)
    /\ Header req
       = if servedLocally routeType then sanitizedHeader (Header (Request_ c))
         else Header (Request_ c).
Proof.
  intros B E N.
  paths fh handler c B E.
  all: do 2 eexists; split; [trace'; reflexivity|];
    split; [trace'; reflexivity|]; split; reflexivity.
Qed.

(** X8.  The request passed on always has a readable body when the body
    that came in was readable: the bytes read, or, on a ModelMapping route,
    those bytes rewritten for the mapped model. *)
Theorem downstream_body_is_restored
    (fh : FallbackHandler T) (handler : HandlerFunc) (c : Context) (bodyBytes : bytes) :
  Body (Request_ c) = NopCloser bodyBytes ->
  exists req,
    downstream (WrapHandler fh handler c).2 = [req]
    /\ Body req
       = NopCloser
           (if decide (decisions (WrapHandler fh handler c).2 = [RouteTypeModelMapping])
            then rewriteModelInRequest bodyBytes
                   (resolve fh (extractModelFromRequest bodyBytes c)).1.1
            else bodyBytes).
Proof.
  intros B.
  every_path fh handler c; try congruence;
    rewrite B in B'; injection B' as <-; try subst modelName'.
  all: eexists; split; [trace'; reflexivity|].
  all: match goal with
       | |- context [decide ?P] => destruct (decide P) as [D|D]
       end.
  all: try (revert D; trace'; discriminate).
  all: try reflexivity.
  - rewrite R'. reflexivity.
  - exfalso. apply D. trace'; reflexivity.
Qed.

(** X9.  The context handed to the downstream handler keeps the path
    parameters of the request; unless the route is ModelMapping it also
    keeps the keys and the response writer: the wrapper sets the mapped-model
    key and wraps the writer on mapped requests only. *)
Theorem context_kept_off_mapping
    (fh : FallbackHandler T) (handler : HandlerFunc) (c ctx : Context) :
  handlerCalls (WrapHandler fh handler c).2 = [ctx] ->
  Params ctx = Params c
  /\ (decisions (WrapHandler fh handler c).2 ≠ [RouteTypeModelMapping] ->
      Keys ctx = Keys c /\ Writer ctx = Writer c).
Proof.
  every_path fh handler c; trace'; intros [= <-]; split; try reflexivity.
  all: try (intros _; split; reflexivity).
  all: intros D; exfalso; apply D; reflexivity.
Qed.

(** X28.  In force mode a usable mapping is taken without a look at the
    local providers of the requested model: the wrapper makes the lookups of
    the resolver and no other, logs the mapped route with the first provider
    of the mapped model, and hands the request on behind the rewriter. *)
Theorem forced_mapping_skips_local_lookup
    (fh : FallbackHandler T) (handler : HandlerFunc) (c : Context)
    (bodyBytes : bytes) (modelName mappedModel mp : string) (mps : list string) :
  Body (Request_ c) = NopCloser bodyBytes ->
  extractModelFromRequest bodyBytes c = modelName ->
  modelName ≠ "" ->
  forced fh = true ->
  (resolve fh modelName).1 = (mappedModel, mp :: mps) ->
  mappedModel ≠ "" ->
  WrapHandler fh handler c
  = after ((resolve fh modelName).2
           ++ [CallLogAmpRouting RouteTypeModelMapping modelName mappedModel mp
                 (URL_Path (Request_ c))])
      (thenFlush (NewResponseRewriter (Writer c) modelName)
         (call handler
            (mapped c (rewriteModelInRequest bodyBytes mappedModel) mappedModel
               modelName))).
Proof.
  intros B E N F R M.
  paths fh handler c B E.
  - specialize (R' F). rewrite R in R'. done.
  - rewrite R in R'. injection R' as <- <- <-. rewrite F. reflexivity.
  - rewrite R in R'. done.
  - rewrite R in R'. done.
Qed.

Lemma mapperCalls_no_mapper (fh : FallbackHandler T) (modelName : string) :
  modelMapper fh = None -> resolve fh modelName = ("", [], []).
Proof.
  intros M. unfold resolve, resolveMappedModel. rewrite M. reflexivity.
Qed.

(** X10.  A handler made by [NewFallbackHandler] has no mapper and reads the
    flag as false: on every request it never asks a mapper, and never routes
    as ModelMapping. *)
Theorem handler_without_mapper_never_maps
    (getProxy : unit -> option ReverseProxy) (handler : HandlerFunc) (c : Context) :
  mapperCalls (WrapHandler (NewFallbackHandler (T := T) getProxy) handler c).2 = []
  /\ ~ In RouteTypeModelMapping
       (decisions (WrapHandler (NewFallbackHandler (T := T) getProxy) handler c).2).
Proof.
  set (fh := NewFallbackHandler (T := T) getProxy).
  assert (R : forall modelName, resolve fh modelName = ("", [], []))
    by (intros; apply mapperCalls_no_mapper; reflexivity).
  every_path fh handler c.
  all: try (rewrite R in *; cbn in *; congruence).
  all: unfold fallbackLookups; rewrite ?R; change (forced fh) with false;
    cbn [fst snd]; rewrite ?after_made, ?call_made.
  all: split; [reflexivity|].
  all: unfold decisions, routings; cbn; intros HIn;
    repeat (destruct HIn as [HIn|HIn]; [discriminate HIn|]); exact HIn.
Qed.

(** X11.  What the resolver returns is either nothing (the empty model and
    no provider) or a model that is not empty together with its providers:
    the list is not empty and is the one the registry gives for the base name
    of the returned model. *)
Theorem resolver_answer_invariant (fh : FallbackHandler T) (modelName : string) :
  (resolve fh modelName).1 = ("", [])
  \/ ((resolve fh modelName).1.1 ≠ ""
      /\ (resolve fh modelName).1.2 ≠ []
      /\ (resolve fh modelName).1.2
         = util_GetProviderName (normalize (resolve fh modelName).1.1)).
Proof.
  destruct (decide ((resolve fh modelName).1.1 = "")) as [E|E].
  - left. apply resolve_nothing, E.
  - right. split; [assumption|].
    destruct (resolve fh modelName).1 as [m ps] eqn:R. cbn in *.
    destruct (resolve_usable fh modelName m ps R E) as [-> ?]. done.
Qed.

(** X12.  For a requested model without suffix and a target that is not
    blank, the resolver's model is the target with its surrounding white
    space trimmed, nothing appended; it is returned with its providers, or
    nothing is returned when it has none. *)
Theorem plain_request_maps_to_trimmed_target
    (fh : FallbackHandler T) (mapper : T) (modelName : string) :
  modelMapper fh = Some mapper ->
  thinking.HasSuffix (thinking.ParseSuffix modelName) = false ->
  let target := strings.TrimSpace (mappingTarget mapper modelName) in
  target ≠ "" ->
  (resolve fh modelName).1
  = if (length (util_GetProviderName (normalize target)) =? 0)%nat then ("", [])
    else (target, util_GetProviderName (normalize target)).
Proof.
  intros M S target N.
  rewrite resolve_value, M. unfold answer. fold target.
  rewrite bool_decide_eq_false_2 by assumption.
  rewrite (reattach_no_suffix modelName target S). reflexivity.
Qed.

(** X13.  The resolver asks the mapper for the name as typed, and for the
    base name only when the first answer is empty; it asks the registry
    once, for the base name of the candidate, and only when the target is
    not blank.  Without a mapper it asks nothing. *)
Theorem resolver_call_discipline (fh : FallbackHandler T) (modelName : string) :
  mapperCalls (resolve fh modelName).2
  = match modelMapper fh with
    | None => []
    | Some mapper =>
        modelName
        :: (if bool_decide (MapModel mapper modelName = "")
            then [normalize modelName] else [])
    end
  /\ registryCalls (resolve fh modelName).2
     = match modelMapper fh with
       | None => []
       | Some mapper =>
           if bool_decide (strings.TrimSpace (mappingTarget mapper modelName) = "")
           then [] else [normalize (candidate mapper modelName)]
       end.
Proof.
  rewrite resolve_calls. destruct (modelMapper fh) as [mapper|]; [|done].
  split; repeat case_bool_decide; reflexivity.
Qed.

End WrapperProperties.

(** ** The header filter and the routing log *)

Section HeaderAndLog.

Context {ext : Externals}.

(** X14.  The header filter returns without a call and touches the headers
    only.  When the request has a beta header whose first value is not
    empty, the header is set to the filtered list as its one value, and is
    deleted when the filtered list is empty; otherwise it is left as it is.
    Every other header is as it was. *)
Theorem beta_header_after_filter (c : Context) :
  exists c',
    filterAntropicBetaHeader c = (Returned tt, c', [])
    /\ URL_Path (Request_ c') = URL_Path (Request_ c)
    /\ Body (Request_ c') = Body (Request_ c)
    /\ Params c' = Params c /\ Keys c' = Keys c /\ Writer c' = Writer c
    /\ Header (Request_ c') !! "Anthropic-Beta"
       = (let betaHeader := Header_Get (Header (Request_ c)) "Anthropic-Beta" in
          if bool_decide (betaHeader ≠ "") then
            let filtered := filterBetaFeatures betaHeader "context-1m-2025-08-07" in
            if bool_decide (filtered ≠ "") then Some [filtered] else None
          else Header (Request_ c) !! "Anthropic-Beta")
    /\ forall key, key ≠ "Anthropic-Beta" ->
                   Header (Request_ c') !! key = Header (Request_ c) !! key.
Proof.
  eexists. split; [apply filterAntropicBetaHeader_run|].
  destruct c as [[p b h] ps ks w]. cbn.
  do 5 (split; [reflexivity|]).
  unfold sanitizedHeader.
  set (beta := Header_Get h "Anthropic-Beta").
  case_bool_decide as V; cbn.
  - case_bool_decide as F.
    + split.
      * unfold Header_Set. apply lookup_insert_eq.
      * intros key N. unfold Header_Set. apply lookup_insert_ne. congruence.
    + split.
      * unfold Header_Del. apply lookup_delete_eq.
      * intros key N. unfold Header_Del. apply lookup_delete_ne. congruence.
  - split; done.
Qed.

(** X15.  The routing log carries the resolved model exactly when one is
    given that is not the requested model, and the provider exactly when one
    is given; the fields written for the route do not displace them. *)
Theorem routing_log_optional_fields
    (routeType : AmpRouteType) (requestedModel resolvedModel provider path : string) :
  fields (logAmpRouting routeType requestedModel resolvedModel provider path)
    !! "resolved_model"
  = (if bool_decide (resolvedModel ≠ "") && bool_decide (resolvedModel ≠ requestedModel)
     then Some resolvedModel else None)
  /\ fields (logAmpRouting routeType requestedModel resolvedModel provider path)
       !! "provider"
     = (if bool_decide (provider ≠ "") then Some provider else None)
  /\ fields (logAmpRouting routeType requestedModel resolvedModel provider path)
       !! "requested_model"
     = Some requestedModel.
Proof.
  unfold logAmpRouting.
  destruct routeType, (bool_decide (resolvedModel ≠ "")),
    (bool_decide (resolvedModel ≠ requestedModel)), (bool_decide (provider ≠ ""));
    cbn; repeat split; by simplify_map_eq.
Qed.

(** X16.  By route: the local and the mapped routes are logged as free, from
    the local OAuth source; the fallback to the proxy as paid in amp credits;
    the absence of provider as an error.  The model id is recorded on the two
    fallback routes only, the mapping on the mapped route only, and the
    mapped route is the one route for which no record is written. *)
Theorem routing_log_by_route
    (routeType : AmpRouteType) (requestedModel resolvedModel provider path : string) :
  let log := logAmpRouting routeType requestedModel resolvedModel provider path in
  fields log !! "cost"
  = Some match routeType with
         | RouteTypeLocalProvider | RouteTypeModelMapping => "free"
         | RouteTypeAmpCredits => "amp_credits"
         | RouteTypeNoProvider => "none"
         end
  /\ fields log !! "source"
     = Some match routeType with
            | RouteTypeLocalProvider | RouteTypeModelMapping => "local_oauth"
            | RouteTypeAmpCredits => "ampcode.com"
            | RouteTypeNoProvider => "error"
            end
  /\ fields log !! "model_id"
     = (if servedLocally routeType then None else Some requestedModel)
  /\ fields log !! "mapping"
     = match routeType with
       | RouteTypeModelMapping => Some (requestedModel +:+ " -> " +:+ resolvedModel)
       | _ => None
       end
  /\ (written log = None <-> routeType = RouteTypeModelMapping).
Proof.
  unfold logAmpRouting.
  destruct routeType, (bool_decide (resolvedModel ≠ "")),
    (bool_decide (resolvedModel ≠ requestedModel)), (bool_decide (provider ≠ ""));
    cbn; repeat split; try done; by simplify_map_eq.
Qed.

End HeaderAndLog.

(** ** The extractor *)

#[local] Arguments String.append !_ _ / : simpl nomatch.

Lemma prefix_colon (a : ascii) (s : string) :
  String.prefix ":" (String a s) = Ascii.eqb a ":".
Proof.
  change (String.prefix ":" (String a s))
    with (if ascii_dec ":" a then String.prefix "" s else false).
  destruct (ascii_dec ":" a) as [<-|N].
  - rewrite Ascii.eqb_refl. destruct s; reflexivity.
  - symmetry. apply Ascii.eqb_neq. congruence.
Qed.

Lemma Split_head_noColon (s : string) :
  match strings.Split s ":" with
  | part0 :: _ => noColon part0 = true
  | [] => False
  end.
Proof.
  induction s as [|a s IH]; cbn; [reflexivity|].
  destruct (Ascii.eqb a ":") eqn:A; [reflexivity|].
  destruct (strings.Split s ":") as [|p ps]; [done|].
  cbn. rewrite A, IH. reflexivity.
Qed.

Lemma Split_first_part (m rest : string) :
  noColon m = true ->
  strings.Split (m +:+ String ":" rest) ":" = m :: strings.Split rest ":".
Proof.
  induction m as [|a m IH]; cbn.
  - reflexivity.
  - intros [A N]%andb_prop. apply negb_true_iff in A. rewrite A, (IH N). reflexivity.
Qed.

Lemma Index_colon_slice (s : string) (i : Z) :
  strings.Index s ":" = i -> 0 <= i ->
  noColon (strings.sliceTo s i) = true
  /\ Z.of_nat (String.length (strings.sliceTo s i)) = i.
Proof.
  revert i. induction s as [|a s IH]; intros i.
  - cbn. intros <-. lia.
  - cbn [strings.Index]. rewrite prefix_colon.
    destruct (Ascii.eqb a ":") eqn:A; [intros <- _; done|].
    destruct (strings.Index s ":" <? 0) eqn:L; [intros <-; lia|].
    apply Z.ltb_ge in L. intros <- _.
    destruct (IH _ eq_refl L) as [N Len].
    unfold strings.sliceTo in *.
    replace (Z.to_nat (strings.Index s ":" + 1)) with (S (Z.to_nat (strings.Index s ":")))
      by lia.
    cbn. rewrite A, N. split; [reflexivity|]. lia.
Qed.

Lemma Index_colon_first (m rest : string) :
  noColon m = true ->
  strings.Index (m +:+ String ":" rest) ":" = Z.of_nat (String.length m).
Proof.
  induction m as [|a m IH].
  - intros _. cbn [String.append strings.Index]. rewrite prefix_colon. reflexivity.
  - cbn [noColon]. intros [A N]%andb_prop. apply negb_true_iff in A.
    cbn [String.append strings.Index]. rewrite prefix_colon, A, (IH N).
    destruct (Z.of_nat (String.length m) <? 0) eqn:L; [apply Z.ltb_lt in L; lia|].
    cbn [String.length]. lia.
Qed.

Lemma sliceTo_app (m rest : string) :
  strings.sliceTo (m +:+ rest) (Z.of_nat (String.length m)) = m.
Proof.
  unfold strings.sliceTo. rewrite Nat2Z.id.
  induction m as [|a m IH]; cbn.
  - destruct rest; reflexivity.
  - rewrite IH. reflexivity.
Qed.

Section Extractor.

Context {ext : Externals}.

(** X17.  A model that is not read from a string field of the body, but
    from the route, never contains a colon: it ends before the first colon of
    the [action] parameter, or of what follows [/models/] in the [path]
    parameter. *)
Theorem route_model_has_no_colon (body : bytes) (c : Context) :
  stringModelField body = false ->
  noColon (extractModelFromRequest body c) = true.
Proof.
  unfold stringModelField. intros J. unfold extractModelFromRequest. rewrite J.
  assert (P : noColon
                match (if bool_decide (Param (Params c) "path" ≠ "") then
                         if strings.Index (Param (Params c) "path") "/models/" >=? 0 then
                           if strings.Index
                                (strings.sliceFrom (Param (Params c) "path")
                                   (strings.Index (Param (Params c) "path") "/models/" + 8))
                                ":" >? 0
                           then Some (strings.sliceTo
                                        (strings.sliceFrom (Param (Params c) "path")
                                           (strings.Index (Param (Params c) "path")
                                              "/models/" + 8))
                                        (strings.Index
                                           (strings.sliceFrom (Param (Params c) "path")
                                              (strings.Index (Param (Params c) "path")
                                                 "/models/" + 8))
                                           ":"))
                           else None
                         else None
                       else None)
                with
                | Some model => model
                | None => ""
                end = true).
  { destruct (bool_decide (Param (Params c) "path" ≠ "")); [|reflexivity].
    destruct (_ >=? 0); [|reflexivity].
    destruct (_ >? 0) eqn:G; [|reflexivity].
    apply Z.gtb_lt in G.
    eapply Index_colon_slice; [reflexivity|lia]. }
  destruct (bool_decide (Param (Params c) "action" ≠ "")); [|exact P].
  pose proof (Split_head_noColon (Param (Params c) "action")) as S.
  destruct (strings.Split (Param (Params c) "action") ":") as [|part0 parts]; [done|].
  destruct (bool_decide (part0 ≠ "")); [exact S|exact P].
Qed.

(** X18.  When the body has no string [model] field and the [action]
    parameter is [m:method] with [m] not empty and free of colons, the
    extractor returns [m], whatever the [path] parameter holds. *)
Theorem action_hint_names_the_model (body : bytes) (c : Context) (m method : string) :
  stringModelField body = false ->
  Param (Params c) "action" = m +:+ ":" +:+ method ->
  noColon m = true ->
  m ≠ "" ->
  extractModelFromRequest body c = m.
Proof.
  unfold stringModelField. intros J A N M. unfold extractModelFromRequest. rewrite J, A.
  rewrite bool_decide_eq_true_2 by (destruct m; [done|discriminate]).
  change (m +:+ ":" +:+ method) with (m +:+ String ":" method).
  rewrite (Split_first_part m method N).
  rewrite bool_decide_eq_true_2 by assumption. reflexivity.
Qed.

(** X19.  When the body has no string [model] field, there is no [action]
    parameter, and the first [/models/] of the [path] parameter is followed
    by [m:method] with [m] not empty and free of colons, the extractor
    returns [m]. *)
Theorem path_hint_names_the_model
    (body : bytes) (c : Context) (pre m method : string) :
  stringModelField body = false ->
  Param (Params c) "action" = "" ->
  Param (Params c) "path" = pre +:+ "/models/" +:+ m +:+ ":" +:+ method ->
  strings.Index (pre +:+ "/models/" +:+ m +:+ ":" +:+ method) "/models/"
  = Z.of_nat (String.length pre) ->
  noColon m = true ->
  m ≠ "" ->
  extractModelFromRequest body c = m.
Proof.
  unfold stringModelField. intros J A P I N M.
  unfold extractModelFromRequest. rewrite J, A, P. cbn [bool_decide].
  rewrite (bool_decide_eq_false_2 ("" ≠ "")) by (intros Q; apply Q; reflexivity).
  rewrite bool_decide_eq_true_2 by (destruct pre; discriminate).
  rewrite I.
  destruct (Z.of_nat (String.length pre) >=? 0) eqn:G;
    [|rewrite Z.geb_leb in G; apply Z.leb_gt in G; lia].
  replace (strings.sliceFrom _ _) with (m +:+ String ":" method).
  - rewrite (Index_colon_first m method N).
    destruct (Z.of_nat (String.length m) >? 0) eqn:L.
    + apply sliceTo_app.
    + destruct m; [done|]. rewrite Z.gtb_ltb in L. apply Z.ltb_ge in L.
      cbn [String.length] in L. lia.
  - symmetry.
    change (pre +:+ "/models/" +:+ m +:+ ":" +:+ method)
      with (pre +:+ "/models/" +:+ (m +:+ String ":" method)).
    rewrite <- append_assoc.
    replace (Z.of_nat (String.length pre) + 8)
      with (Z.of_nat (String.length (pre +:+ "/models/")))
      by (rewrite append_length; cbn; lia).
    apply sliceFrom_app.
Qed.

(** X20.  A body whose [model] field is the empty string ends the
    extraction: the route is not consulted, the request is not routed, and
    the wrapper hands it to the downstream handler as it came in. *)
Theorem empty_model_field_bypasses_routing
    {T : Type} {mapperOf : ModelMapper T}
    (fh : FallbackHandler T) (handler : HandlerFunc) (c : Context) (bodyBytes : bytes) :
  Body (Request_ c) = NopCloser bodyBytes ->
  gjson.Exists (gjson_GetBytes bodyBytes "model") = true ->
  gjson.Type' (gjson_GetBytes bodyBytes "model") = gjson.String_ ->
  gjson.Str (gjson_GetBytes bodyBytes "model") = "" ->
  extractModelFromRequest bodyBytes c = ""
  /\ WrapHandler fh handler c = call handler c.
Proof.
  intros B X S E.
  assert (M : extractModelFromRequest bodyBytes c = "").
  { unfold extractModelFromRequest, gjson.String.
    rewrite X, (bool_decide_eq_true_2 _ S), S. exact E. }
  split; [exact M|].
  every_path fh handler c; try congruence;
    rewrite B in B'; injection B' as <-; try congruence.
  rewrite (restored_readable c bodyBytes B). reflexivity.
Qed.

End Extractor.

(** * The AugPlus endpoints *)

Section AugPlus.

Context {sources : augplus.Sources}.
Context {bindCardLogin : augplus.Bindable augplus.CardLoginRequest}.
Context {bindPoolGain : augplus.Bindable augplus.PoolGainRequest}.
Context {bindPoolList : augplus.Bindable augplus.PoolListRequest}.

(** X21.  Card login succeeds exactly when the body binds to a request whose
    card is not empty.  It then answers with a user made for the occasion,
    whatever the card is: the identifier is [local_user_] followed by the
    time, the token is a generated one, the e-mail is that of the request,
    and the VIP is the augment one with 999999 credits, none of them used. *)
Theorem card_login_requires_card (m : augplus.Module_) (c : Context) :
  (augplus.Code (augplus.response (augplus.cardLogin m c)) = 0
   <-> exists req, augplus.ShouldBindJSON c = Some req /\ augplus.Card req ≠ "")
  /\ forall req,
       augplus.ShouldBindJSON c = Some req ->
       augplus.Card req ≠ "" ->
       augplus.cardLogin m c
       = augplus.success
           (augplus.OfUser
              {| augplus.ID := "local_user_" +:+ augplus.now;
                 augplus.Token := augplus.generateToken;
                 augplus.Email := augplus.login_Email req;
                 augplus.VIP_ :=
                   Some {| augplus.Product := "augment"; augplus.Score := 999999;
                           augplus.ScoreUsed := 0 |} |}).
Proof.
  unfold augplus.cardLogin.
  destruct (augplus.ShouldBindJSON c) as [req|]; cbn.
  - case_bool_decide as E; cbn.
    + split; [|intros req' [= <-] N; done]. split; [discriminate|].
      intros (req' & [= <-] & N). done.
    + split.
      * split; [|reflexivity]. intros _. exists req. done.
      * intros req' [= <-] _. reflexivity.
  - split; [|discriminate]. split; [discriminate|]. intros (? & ? & _). discriminate.
Qed.

(** X22.  Every endpoint answers with the status 200, failures included: a
    reply is either a success, of code 0 and message [success], or a
    failure, of code -1 and without data. *)
Theorem every_reply_is_status_ok
    (e : augplus.Endpoint) (m : augplus.Module_) (c : Context) :
  augplus.status (augplus.serve e m c) = 200
  /\ ((augplus.Code (augplus.response (augplus.serve e m c)) = 0
       /\ augplus.Msg (augplus.response (augplus.serve e m c)) = "success")
      \/ (augplus.Code (augplus.response (augplus.serve e m c)) = -1
          /\ augplus.Data_ (augplus.response (augplus.serve e m c)) = augplus.Nil)).
Proof.
  destruct e; cbn;
    unfold augplus.cardLogin, augplus.poolGain, augplus.poolList, augplus.getProxy.
  all: repeat match goal with
              | |- context [augplus.ShouldBindJSON ?c] =>
                  destruct (augplus.ShouldBindJSON c)
              | |- context [augplus.cfg ?m] => destruct (augplus.cfg m)
              end; cbn -[pretty].
  all: repeat case_bool_decide; cbn -[pretty]; auto.
Qed.

(** X23.  For a product other than [windsurf], the host of the pool account
    is [host:port] with the port in decimal.  The host is the configured
    one, unless there is no configuration or the configured host is empty or
    the wildcard [0.0.0.0]: it is [127.0.0.1] then.  The port is the
    configured one when it is positive, and 8317 otherwise.  So the host is
    never empty nor the wildcard, and the port is always positive. *)
Theorem pool_host_is_never_wildcard
    (m : augplus.Module_) (c : Context) (req : augplus.PoolGainRequest) :
  augplus.ShouldBindJSON c = Some req ->
  augplus.gain_Product req ≠ "windsurf" ->
  let host :=
    match augplus.cfg m with
    | Some cfg =>
        if bool_decide (augplus.Host cfg = "" \/ augplus.Host cfg = "0.0.0.0")
        then "127.0.0.1" else augplus.Host cfg
    | None => "127.0.0.1"
    end in
  let port :=
    match augplus.cfg m with
    | Some cfg => if bool_decide (0 < augplus.Port cfg) then augplus.Port cfg else 8317
    | None => 8317
    end in
  (exists a,
     augplus.Data_ (augplus.response (augplus.poolGain m c)) = augplus.OfPoolAccount a
     /\ augplus.account_Host a = host +:+ ":" +:+ pretty port)
  /\ host ≠ "" /\ host ≠ "0.0.0.0" /\ 0 < port.
Proof.
  intros B P host port. subst host port. unfold augplus.poolGain. rewrite B.
  rewrite (bool_decide_eq_false_2 _ P).
  destruct (augplus.cfg m) as [cfg|]; cbn [augplus.cfg].
  - split.
    + eexists. split; [reflexivity|]. cbn [augplus.account_Host].
      destruct (augplus.Port cfg >? 0) eqn:G;
        rewrite Z.gtb_ltb in G; [apply Z.ltb_lt in G|apply Z.ltb_ge in G].
      * rewrite (bool_decide_eq_true_2 (0 < augplus.Port cfg)) by assumption.
        repeat case_bool_decide; cbn [andb]; try reflexivity; tauto.
      * rewrite (bool_decide_eq_false_2 (0 < augplus.Port cfg)) by lia.
        repeat case_bool_decide; cbn [andb]; try reflexivity; tauto.
    + repeat case_bool_decide; repeat split; try done; try lia; tauto.
  - split; [eexists; split; reflexivity|]. repeat split; try done.
Qed.

(** X24.  The proxy URL is the host of the pool account between [http://]
    and a slash: the two endpoints advertise the same address. *)
Theorem proxy_url_matches_pool_host
    (m : augplus.Module_) (c c' : Context) (req : augplus.PoolGainRequest) :
  augplus.ShouldBindJSON c = Some req ->
  augplus.gain_Product req ≠ "windsurf" ->
  exists a,
    augplus.Data_ (augplus.response (augplus.poolGain m c)) = augplus.OfPoolAccount a
    /\ augplus.Data_ (augplus.response (augplus.getProxy m c'))
       = augplus.H "proxy" (augplus.Text ("http://" +:+ augplus.account_Host a +:+ "/")).
Proof.
  intros B P. unfold augplus.poolGain, augplus.getProxy. rewrite B.
  rewrite (bool_decide_eq_false_2 _ P).
  destruct (augplus.cfg m) as [cfg|]; cbn -[pretty].
  - eexists. split; [reflexivity|]. cbn -[pretty].
    rewrite !append_assoc. reflexivity.
  - eexists. split; [reflexivity|]. reflexivity.
Qed.

(** X25.  The credential of the pool account is the first API key of the
    configuration, or [my-ampcode-key] when there is no configuration or no
    key.  The product [windsurf] receives it as access token, with no host
    and no token; every other product receives it as token. *)
Theorem pool_account_by_product
    (m : augplus.Module_) (c : Context) (req : augplus.PoolGainRequest) :
  augplus.ShouldBindJSON c = Some req ->
  let key :=
    match augplus.cfg m with
    | Some cfg => hd "my-ampcode-key" (augplus.APIKeys cfg)
    | None => "my-ampcode-key"
    end in
  exists a,
    augplus.Data_ (augplus.response (augplus.poolGain m c)) = augplus.OfPoolAccount a
    /\ augplus.account_Email a = "local@cliproxyapi.local"
    /\ if bool_decide (augplus.gain_Product req = "windsurf")
       then augplus.account_AccessToken a = key
            /\ augplus.account_Token a = "" /\ augplus.account_Host a = ""
       else augplus.account_Token a = key /\ augplus.account_AccessToken a = "".
Proof.
  intros B key. subst key. unfold augplus.poolGain. rewrite B.
  destruct (augplus.cfg m) as [cfg|]; cbn -[pretty].
  - destruct (augplus.APIKeys cfg) as [|k ks]; cbn -[pretty];
      case_bool_decide; cbn -[pretty]; eexists; split; try reflexivity; done.
  - case_bool_decide; cbn -[pretty]; eexists; split; try reflexivity; done.
Qed.

(** The routes are added in order, through the router. *)
Lemma registerRoutes_postAll {E : Type} {router : augplus.Router E}
    (m : augplus.Module_) (engine : E) :
  match postAll augplusRoutes engine with
  | Returned engine' => augplus.registerRoutes m engine = (Returned tt, engine')
  | Panicked => (augplus.registerRoutes m engine).1 = Panicked
  end.
Proof.
  unfold augplus.registerRoutes, augplus.POST, augplusRoutes, mbind, augplus.Setup_bind.
  cbn [postAll].
  repeat match goal with
         | |- context [augplus.engine_POST ?e ?p ?x] =>
             destruct (augplus.engine_POST e p x); cbn [fst]; try reflexivity
         end.
Qed.

(** X26.  Registration happens once.  A [Register] of a module that is
    registered touches neither the module nor the engine.  A [Register] of a
    module that is not stores the configuration and adds the eight routes of
    the module, in order: when the router accepts them all the module is
    registered; when the router panics on one the module is left
    unregistered, with the new configuration.  After a [Register] that
    returned, a further [Register] adds no route and keeps the configuration,
    whatever configuration it is given. *)
Theorem register_is_idempotent
    {E : Type} {router : augplus.Router E}
    (m : augplus.Module_) (ctx : augplus.ModuleContext E) :
  (augplus.registered m = true ->
   augplus.Register m ctx = (Returned tt, m, augplus.Engine ctx))
  /\ (augplus.registered m = false ->
      augplus.cfg (augplus.Register m ctx).1.2 = augplus.Config_ ctx
      /\ match postAll augplusRoutes (augplus.Engine ctx) with
         | Returned engine =>
             (augplus.Register m ctx).1.1 = Returned tt
             /\ augplus.registered (augplus.Register m ctx).1.2 = true
             /\ (augplus.Register m ctx).2 = engine
         | Panicked =>
             (augplus.Register m ctx).1.1 = Panicked
             /\ augplus.registered (augplus.Register m ctx).1.2 = false
         end)
  /\ ((augplus.Register m ctx).1.1 = Returned tt ->
      augplus.registered (augplus.Register m ctx).1.2 = true
      /\ forall cfg',
           augplus.Register (augplus.Register m ctx).1.2
             {| augplus.Engine := (augplus.Register m ctx).2; augplus.Config_ := cfg' |}
           = (Returned tt, (augplus.Register m ctx).1.2, (augplus.Register m ctx).2)).
Proof.
  unfold augplus.Register.
  pose proof (registerRoutes_postAll
                {| augplus.cfg := augplus.Config_ ctx;
                   augplus.registered := augplus.registered m |}
                (augplus.Engine ctx)) as P.
  destruct (augplus.registered m) eqn:R.
  - split; [reflexivity|]. split; [discriminate|]. intros _. cbn.
    split; [assumption|]. intros cfg'. rewrite R. reflexivity.
  - split; [discriminate|]. split.
    + intros _.
      destruct (postAll augplusRoutes (augplus.Engine ctx)) as [engine|].
      * rewrite P. cbn. done.
      * destruct (augplus.registerRoutes _ _) as [[[]|] engine']; cbn in *; done.
    + destruct (augplus.registerRoutes _ _) as [[[]|] engine']; cbn; [|discriminate].
      intros _. done.
Qed.

Lemma EncodeToString_length (src : list ascii) :
  String.length (augplus.EncodeToString src) = (2 * length src)%nat.
Proof. induction src as [|v src IH]; cbn; [reflexivity|]. rewrite IH. lia. Qed.

Lemma hexDigit_isHex (n : N) : isHexDigit (augplus.hexDigit n) = true.
Proof.
  destruct n as [|p]; [reflexivity|].
  do 4 (try destruct p as [p|p|]); reflexivity.
Qed.

Lemma EncodeToString_allHex (src : list ascii) :
  allHex (augplus.EncodeToString src) = true.
Proof.
  induction src as [|v src IH]; [reflexivity|].
  cbn [augplus.EncodeToString allHex]. rewrite !hexDigit_isHex, IH. reflexivity.
Qed.

Lemma rand_Read_length (b : list ascii) : length (augplus.rand_Read b) = length b.
Proof.
  unfold augplus.rand_Read. rewrite length_app, length_take, length_drop. lia.
Qed.

(** X27.  A generated token is [local_] followed by 64 lower-case
    hexadecimal digits, 70 bytes in all, whatever the random source gives,
    even fewer than 32 bytes. *)
Theorem generated_token_shape :
  exists digits,
    augplus.generateToken = "local_" +:+ digits
    /\ String.length digits = 64%nat
    /\ allHex digits = true
    /\ String.length augplus.generateToken = 70%nat.
Proof.
  unfold augplus.generateToken.
  eexists. split; [reflexivity|].
  assert (L : String.length (augplus.EncodeToString (augplus.rand_Read (augplus.make 32)))
              = 64%nat).
  { rewrite EncodeToString_length, rand_Read_length. unfold augplus.make.
    rewrite repeat_length. reflexivity. }
  split; [exact L|]. split; [apply EncodeToString_allHex|].
  rewrite append_length, L. reflexivity.
Qed.

End AugPlus.

(** * Witnesses of the further properties *)

Lemma unreadable_body_passes_through_witness :
  Scenario.run Scenario.both (Demo.fallback Demo.ampcode Scenario.toLocalA true)
    Demo.returns Cases.broken
  = (Returned tt, Cases.broken, [CallHandler Cases.broken []]).
Proof.
  unfold Scenario.run.
  rewrite (unreadable_body_passes_through (ext := Demo.externals Scenario.both)
             (Demo.fallback Demo.ampcode Scenario.toLocalA true) Demo.returns
             Cases.broken "unexpected EOF" eq_refl).
  reflexivity.
Defined.

Lemma no_model_passes_through_witness :
  Scenario.run Scenario.both (Demo.fallback Demo.ampcode Scenario.toLocalA true)
    Demo.returns Cases.anonymous
  = (Returned tt, Cases.anonymous, [CallHandler Cases.anonymous []]).
Proof.
  unfold Scenario.run.
  rewrite (no_model_passes_through (ext := Demo.externals Scenario.both)
             (Demo.fallback Demo.ampcode Scenario.toLocalA true) Demo.returns
             Cases.anonymous "{}" eq_refl eq_refl).
  reflexivity.
Defined.

Lemma fallback_forwards_request_untouched_witness :
  Scenario.run [] (Demo.fallback Demo.ampcode [] false) Demo.returns
    (Scenario.chat "claude-x")
  = (Returned tt, Scenario.chat "claude-x",
     [CallGetProviderName "claude-x"; CallMapModel "claude-x"; CallMapModel "claude-x";
      CallLogAmpRouting RouteTypeAmpCredits "claude-x" "" "" "/v1/chat/completions";
      CallServeHTTP Demo.upstreamProxy ClientWriter (Request_ (Scenario.chat "claude-x"))])
  /\ (Scenario.run [] (Demo.fallback Demo.aborting [] false) Demo.returns
        (Scenario.chat "claude-x")).1.1
     = Panicked.
Proof.
  destruct (fallback_forwards_request_untouched (ext := Demo.externals [])
              (Demo.fallback Demo.ampcode [] false) Demo.returns
              (Scenario.chat "claude-x") (Demo.modelBody "claude-x") "claude-x"
              Demo.upstreamProxy) as [Hr _]; [by vm_compute..|].
  destruct (fallback_forwards_request_untouched (ext := Demo.externals [])
              (Demo.fallback Demo.aborting [] false) Demo.returns
              (Scenario.chat "claude-x") (Demo.modelBody "claude-x") "claude-x"
              Demo.abortingProxy) as [Ha _]; [by vm_compute..|].
  unfold Scenario.run. rewrite Hr, Ha. split; reflexivity.
Defined.

Lemma local_provider_skips_mapper_witness :
  (Scenario.run Scenario.localOnly (Demo.fallback Demo.noProxy Scenario.toLocalA false)
     Demo.returns (Scenario.chat "gpt-5(xhigh)")).2
  = [CallGetProviderName "gpt-5";
     CallLogAmpRouting RouteTypeLocalProvider "gpt-5(xhigh)" "gpt-5" "codex"
       "/v1/chat/completions";
     CallHandler (Scenario.chat "gpt-5(xhigh)") []].
Proof.
  unfold Scenario.run.
  rewrite (local_provider_skips_mapper (ext := Demo.externals Scenario.localOnly)
             (Demo.fallback Demo.noProxy Scenario.toLocalA false) Demo.returns
             (Scenario.chat "gpt-5(xhigh)") (Demo.modelBody "gpt-5(xhigh)")
             "gpt-5(xhigh)" "codex" []); try by vm_compute.
Defined.

Lemma forced_mapping_skips_local_lookup_witness :
  (Scenario.run Scenario.both (Demo.fallback Demo.noProxy Scenario.toLocalA true)
     Demo.returns (Scenario.chat "gpt-5(xhigh)")).2
  = [CallMapModel "gpt-5(xhigh)"; CallMapModel "gpt-5";
     CallGetProviderName "local-model-a";
     CallLogAmpRouting RouteTypeModelMapping "gpt-5(xhigh)" "local-model-a(xhigh)"
       "claude" "/v1/chat/completions";
     CallHandler
       (mapped (ext := Demo.externals Scenario.both) (Scenario.chat "gpt-5(xhigh)")
          (Demo.modelBody "local-model-a(xhigh)") "local-model-a(xhigh)" "gpt-5(xhigh)")
       [];
     CallFlush (NewResponseRewriter ClientWriter "gpt-5(xhigh)")].
Proof.
  unfold Scenario.run.
  rewrite (forced_mapping_skips_local_lookup (ext := Demo.externals Scenario.both)
             (Demo.fallback Demo.noProxy Scenario.toLocalA true) Demo.returns
             (Scenario.chat "gpt-5(xhigh)") (Demo.modelBody "gpt-5(xhigh)")
             "gpt-5(xhigh)" "local-model-a(xhigh)" "claude" []); try by vm_compute.
Defined.

Lemma beta_header_sanitized_on_local_routes_only_witness :
  exists routeType req,
    decisions (Scenario.run Scenario.localOnly (Demo.fallback Demo.noProxy [] false)
                 Demo.returns (Cases.withBeta "gpt-5")).2 = [routeType]
    /\ downstream (Scenario.run Scenario.localOnly (Demo.fallback Demo.noProxy [] false)
                     Demo.returns (Cases.withBeta "gpt-5")).2 = [req]
    /\ URL_Path req = "/v1/messages"
    /\ Header req
       = if servedLocally routeType
         then sanitizedHeader (ext := Demo.externals Scenario.localOnly)
                (Header (Request_ (Cases.withBeta "gpt-5")))
         else Header (Request_ (Cases.withBeta "gpt-5")).
Proof.
  apply (beta_header_sanitized_on_local_routes_only
           (ext := Demo.externals Scenario.localOnly)
           (Demo.fallback Demo.noProxy [] false) Demo.returns
           (Cases.withBeta "gpt-5") (Demo.modelBody "gpt-5") "gpt-5");
    by vm_compute.
Defined.

Lemma downstream_body_is_restored_witness :
  exists req,
    downstream (Scenario.run Scenario.mappedOnly
                  (Demo.fallback Demo.noProxy Scenario.toLocalA false) Demo.returns
                  (Scenario.chat "gpt-5(xhigh)")).2 = [req]
    /\ Body req = NopCloser (Demo.modelBody "local-model-a(xhigh)").
Proof.
  destruct (downstream_body_is_restored (ext := Demo.externals Scenario.mappedOnly)
              (Demo.fallback Demo.noProxy Scenario.toLocalA false) Demo.returns
              (Scenario.chat "gpt-5(xhigh)") (Demo.modelBody "gpt-5(xhigh)") eq_refl)
    as (req & D & B).
  exists req. split; [exact D|]. rewrite B. vm_compute. reflexivity.
Defined.

Lemma context_kept_off_mapping_witness :
  Params (Scenario.chat "claude-x") = []
  /\ Keys (Scenario.chat "claude-x") = ∅
  /\ Writer (Scenario.chat "claude-x") = ClientWriter.
Proof.
  destruct (context_kept_off_mapping (ext := Demo.externals [])
              (Demo.fallback Demo.noProxy [] false) Demo.returns
              (Scenario.chat "claude-x") (Scenario.chat "claude-x"))
    as [P K]; [by vm_compute|].
  split; [exact P|]. apply K. by vm_compute.
Defined.

Lemma plain_request_maps_to_trimmed_target_witness :
  (Scenario.resolved Scenario.mappedOnly
     (Demo.fallback Demo.noProxy Scenario.padded false) "gpt-5").1
  = ("local-model-a", ["claude"]).
Proof.
  unfold Scenario.resolved.
  rewrite (plain_request_maps_to_trimmed_target (ext := Demo.externals Scenario.mappedOnly)
             (Demo.fallback Demo.noProxy Scenario.padded false) Scenario.padded "gpt-5"
             eq_refl eq_refl); [vm_compute; reflexivity|by vm_compute].
Defined.

Lemma route_model_has_no_colon_witness :
  noColon (extractModelFromRequest (ext := Demo.externals []) "{}" (Scenario.gemini "{}"))
  = true.
Proof.
  apply (route_model_has_no_colon (ext := Demo.externals []) "{}" (Scenario.gemini "{}")).
  by vm_compute.
Defined.

Lemma action_hint_names_the_model_witness :
  extractModelFromRequest (ext := Demo.externals []) "{}" (Scenario.gemini "{}")
  = "gemini-pro".
Proof.
  apply (action_hint_names_the_model (ext := Demo.externals []) "{}"
           (Scenario.gemini "{}") "gemini-pro" "generateContent"); by vm_compute.
Defined.

Lemma path_hint_names_the_model_witness :
  extractModelFromRequest (ext := Demo.externals []) "{}" Cases.publishers
  = "gemini-3-pro-preview".
Proof.
  apply (path_hint_names_the_model (ext := Demo.externals []) "{}" Cases.publishers
           "/publishers/google" "gemini-3-pro-preview" "streamGenerateContent");
    by vm_compute.
Defined.

Lemma empty_model_field_bypasses_routing_witness :
  Scenario.run Scenario.both (Demo.fallback Demo.ampcode Scenario.toLocalA true)
    Demo.returns (Scenario.gemini (Demo.modelBody ""))
  = (Returned tt, Scenario.gemini (Demo.modelBody ""),
     [CallHandler (Scenario.gemini (Demo.modelBody "")) []]).
Proof.
  destruct (empty_model_field_bypasses_routing (ext := Demo.externals Scenario.both)
              (Demo.fallback Demo.ampcode Scenario.toLocalA true) Demo.returns
              (Scenario.gemini (Demo.modelBody "")) (Demo.modelBody ""))
    as [_ W]; [reflexivity|reflexivity|reflexivity|reflexivity|].
  unfold Scenario.run. rewrite W. reflexivity.
Defined.

Lemma card_login_requires_card_witness :
  augplus.cardLogin augplus.New (AugDemo.login "any-card" "me@example.com")
  = augplus.success
      (augplus.OfUser
         {| augplus.ID := "local_user_20250101093000";
            augplus.Token :=
              "local_abcd120000000000000000000000000000000000000000000000000000000000";
            augplus.Email := "me@example.com";
            augplus.VIP_ :=
              Some {| augplus.Product := "augment"; augplus.Score := 999999;
                      augplus.ScoreUsed := 0 |} |}).
Proof.
  destruct (card_login_requires_card augplus.New
              (AugDemo.login "any-card" "me@example.com")) as [_ W].
  rewrite (W {| augplus.Card := "any-card"; augplus.login_Email := "me@example.com";
                augplus.Agent := "" |} eq_refl ltac:(discriminate)).
  reflexivity.
Defined.

Lemma pool_host_is_never_wildcard_witness :
  exists a,
    augplus.Data_ (augplus.response
                     (augplus.poolGain AugDemo.lan
                        (AugDemo.post "/api/pools/gain" "product" "augment")))
    = augplus.OfPoolAccount a
    /\ augplus.account_Host a = "10.0.0.5:9000".
Proof.
  destruct (pool_host_is_never_wildcard AugDemo.lan
              (AugDemo.post "/api/pools/gain" "product" "augment")
              {| augplus.gain_Product := "augment"; augplus.gain_PoolID := "";
                 augplus.Version := 0 |}) as [W _]; [reflexivity|discriminate|].
  exact W.
Defined.

Lemma register_is_idempotent_witness :
  length AugDemo.fresh.2 = 8%nat
  /\ augplus.Register AugDemo.fresh.1.2
       {| augplus.Engine := AugDemo.fresh.2; augplus.Config_ := None |}
     = (Returned tt, AugDemo.fresh.1.2, AugDemo.fresh.2).
Proof.
  split; [reflexivity|].
  destruct (register_is_idempotent augplus.New
              {| augplus.Engine := ([] : list AugDemo.Route);
                 augplus.Config_ := augplus.cfg AugDemo.lan |}) as (_ & _ & W).
  destruct (W eq_refl) as [_ W']. exact (W' None).
Defined.

Lemma proxy_url_matches_pool_host_witness :
  exists a,
    augplus.Data_ (augplus.response
                     (augplus.poolGain AugDemo.wildcard
                        (AugDemo.post "/api/pools/gain" "product" "augment")))
    = augplus.OfPoolAccount a
    /\ augplus.Data_ (augplus.response (augplus.getProxy AugDemo.wildcard Cases.anonymous))
       = augplus.H "proxy" (augplus.Text ("http://" +:+ augplus.account_Host a +:+ "/")).
Proof.
  apply (proxy_url_matches_pool_host AugDemo.wildcard
           (AugDemo.post "/api/pools/gain" "product" "augment") Cases.anonymous
           {| augplus.gain_Product := "augment"; augplus.gain_PoolID := "";
              augplus.Version := 0 |}); [reflexivity|discriminate].
Defined.

Lemma pool_account_by_product_witness :
  exists a,
    augplus.Data_ (augplus.response
                     (augplus.poolGain AugDemo.wildcard
                        (AugDemo.post "/api/pools/gain" "product" "windsurf")))
    = augplus.OfPoolAccount a
    /\ augplus.account_Email a = "local@cliproxyapi.local"
    /\ augplus.account_AccessToken a = "key-one"
    /\ augplus.account_Token a = "" /\ augplus.account_Host a = "".
Proof.
  apply (pool_account_by_product AugDemo.wildcard
           (AugDemo.post "/api/pools/gain" "product" "windsurf")
           {| augplus.gain_Product := "windsurf"; augplus.gain_PoolID := "";
              augplus.Version := 0 |}); reflexivity.
Defined.

(** The pool and the proxy of a module listening on every interface. *)
Example wildcard_module_advertises_loopback :
  augplus.poolGain AugDemo.wildcard (AugDemo.post "/api/pools/gain" "product" "augment")
  = augplus.success
      (augplus.OfPoolAccount
         {| augplus.account_Token := "key-one";
            augplus.account_Host := "127.0.0.1:9000";
            augplus.account_Email := "local@cliproxyapi.local";
            augplus.account_AccessToken := "" |})
  /\ augplus.getProxy AugDemo.wildcard Cases.anonymous
     = augplus.success (augplus.H "proxy" (augplus.Text "http://127.0.0.1:9000/")).
Proof. split; vm_compute; reflexivity. Qed.

(** A token from a source of three bytes. *)
Example token_of_short_source :
  augplus.generateToken
  = "local_abcd120000000000000000000000000000000000000000000000000000000000".
Proof. vm_compute. reflexivity. Qed.

(** The routes of a new module on an engine without routes; a second module
    on the same engine is refused its first route and is left unregistered. *)
Example routes_of_a_new_module :
  AugDemo.fresh.1.1 = Returned tt
  /\ (λ r, (AugDemo.pattern r, AugDemo.endpoint r)) <$> AugDemo.fresh.2 = augplusRoutes
  /\ AugDemo.second
     = (Panicked, {| augplus.cfg := None; augplus.registered := false |}, AugDemo.fresh.2).
Proof. vm_compute. repeat split; reflexivity. Qed.

(** A beta header that holds the denylisted feature only is deleted. *)
Example beta_header_deleted :
  Header (Request_ (filterAntropicBetaHeader (ext := Demo.externals [])
                      {| Request_ := {| URL_Path := "/v1/messages";
                                        Body := NopCloser "{}";
                                        Header := {[ "Anthropic-Beta" :=
                                                       ["context-1m-2025-08-07"] ]} |};
                         Params := [];
                         Keys := ∅;
                         Writer := ClientWriter |}).1.2)
  = ∅.
Proof. vm_compute. reflexivity. Qed.
